(** * Aintivirus Coin tokenomics simulator: the simulation loop of [ainti.py]

    The script's numbers are Python and NumPy floats.  They are modelled
    here as exact real numbers: [+ - * /] are the field operations of [R],
    [**] with the exponent [1 / 365] is [Rpower], [**] with an integer day
    is [pow].  The one non-finite value the script writes down itself,
    [float("inf")], is kept as a constructor of [Price].  Real numbers do
    not round: what is proved of the loop below is about orders, floors,
    lengths and which value is recorded where.  Where rounding decides a
    question, the module [Binary64] runs the same loop on primitive
    floats.

    The script reads its parameters from module-level names
    ([FIXED_SUPPLY], [initial_price], [price_change_pct],
    [days_to_simulate], [burn_rates], [service_volumes]); they are gathered
    in one record, [SimulationConfig].  The six parallel lists the loop
    appends to, and the per-service lists, are kept as one list of rows:
    the rows of the data frame the script builds from them. *)

From Stdlib Require Import String.
From Stdlib Require Import Reals Lra Lia List.
From Stdlib Require PrimFloat.
Import ListNotations.

Open Scope R_scope.

(** ** Configuration *)

(** One entry of [burn_rates] together with the entry of [service_volumes]
    under the same key.  The script fills [service_volumes] while iterating
    over [burn_rates], so both dictionaries have the same keys in the same
    order. *)
Record Service : Type := mkService {
  service_name : string;
  burn_rate : R;
  daily_volume : R
}.

Record SimulationConfig : Type := mkConfig {
  initial_price : R;
  price_change_pct : R;
  days_to_simulate : nat;
  fixed_supply : R;
  services : list Service
}.

(** The constants and defaults of the script. *)
Definition FIXED_SUPPLY : R := 100000000.
Definition DAYS_IN_YEAR : nat := 365.
Definition MAX_DAYS : nat := 4 * DAYS_IN_YEAR.

Definition default_services : list Service :=
  [ mkService "Mixer" (2 / 100) 25000;
    mkService "Merch-Shop" (2 / 10) 5000;
    mkService "eSIM" (2 / 100) 10000;
    mkService "Gift Card" (2 / 100) 20000 ].

Definition default_config : SimulationConfig :=
  mkConfig 1 20 365 FIXED_SUPPLY default_services.

(** The domain the simulation is meant for.  The base [1 + pct / 100] of
    the growth factor has to be positive for the real power with exponent
    [1 / 365] to be defined; the slider of the script offers -50..200. *)
Definition valid_service (s : Service) : Prop :=
  0 <= burn_rate s <= 1 /\ 0 <= daily_volume s.

Definition valid_config (cfg : SimulationConfig) : Prop :=
  0 < initial_price cfg /\
  -100 < price_change_pct cfg /\
  (1 <= days_to_simulate cfg)%nat /\
  0 < fixed_supply cfg /\
  Forall valid_service (services cfg).

(** ** The rows of the table *)

(** [price_with_burn_today] is a product of floats or [float("inf")]. *)
Inductive Price : Type :=
| Finite (p : R)
| Infinity.

Record DailyRow : Type := mkRow {
  day : nat;
  price_no_burn : R;
  price_with_burn : Price;
  remaining_supply : R;
  daily_burned_total : R;
  cumulative_burned : R;
  daily_burn_by_service : list (string * R)
}.

(** ** The simulation loop *)

(** [days = np.arange(1, days_to_simulate + 1)] *)
Definition days (cfg : SimulationConfig) : list nat :=
  seq 1 (days_to_simulate cfg).

(** [daily_growth_factor = (1 + price_change_pct / 100) ** (1 / 365)] *)
Definition daily_growth_factor (cfg : SimulationConfig) : R :=
  Rpower (1 + price_change_pct cfg / 100) (1 / 365).

(** [initial_market_price * (daily_growth_factor ** day)] *)
Definition price_no_burn_today (cfg : SimulationConfig) (d : nat) : R :=
  initial_price cfg * daily_growth_factor cfg ^ d.

(** [price_no_burn_today * (FIXED_SUPPLY / supply) if supply > 0
     else float("inf")] *)
Definition price_with_burn_today
    (cfg : SimulationConfig) (supply : R) (d : nat) : Price :=
  if Rlt_dec 0 supply
  then Finite (price_no_burn_today cfg d * (fixed_supply cfg / supply))
  else Infinity.

(** A finite amount divided by a price; a finite float divided by
    infinity is [0.0]. *)
Definition div_price (x : R) (p : Price) : R :=
  match p with
  | Finite q => x / q
  | Infinity => 0
  end.

(** [burn_amount = (volume * burn_rate) / price_with_burn_today] *)
Definition burn_amount (s : Service) (p : Price) : R :=
  div_price (daily_volume s * burn_rate s) p.

(** The inner loop over the services: it adds each service's burn to
    [burned_today_total] and appends it to that service's list. *)
Definition service_step (p : Price) (acc : R * list (string * R))
    (s : Service) : R * list (string * R) :=
  (fst acc + burn_amount s p,
   snd acc ++ [(service_name s, burn_amount s p)]).

Definition service_loop (svcs : list Service) (p : Price)
    : R * list (string * R) :=
  fold_left (service_step p) svcs (0, []).

(** The variables the outer loop updates: [supply], [cumulative_burn] and
    the table appended to so far. *)
Record LoopState : Type := mkState {
  supply : R;
  cumulative_burn : R;
  table : list DailyRow
}.

Definition initial_state (cfg : SimulationConfig) : LoopState :=
  mkState (fixed_supply cfg) 0 [].

(** One pass through the body of [for day in days]. *)
Definition loop_body (cfg : SimulationConfig) (st : LoopState) (d : nat)
    : LoopState :=
  let p_no_burn := price_no_burn_today cfg d in
  let p_with_burn := price_with_burn_today cfg (supply st) d in
  let burned := service_loop (services cfg) p_with_burn in
  let burned_today_total := fst burned in
  let supply' := Rmax (supply st - burned_today_total) 1 in
  let cumulative_burn' := cumulative_burn st + burned_today_total in
  mkState supply' cumulative_burn'
    (table st ++
     [mkRow d p_no_burn p_with_burn supply' burned_today_total
        cumulative_burn' (snd burned)]).

Definition run_loop (cfg : SimulationConfig) (ds : list nat) : LoopState :=
  fold_left (loop_body cfg) ds (initial_state cfg).

Definition simulate (cfg : SimulationConfig) : list DailyRow :=
  table (run_loop cfg (days cfg)).

(** The row the body appends on day [d] when it starts in state [st]. *)
Definition day_row (cfg : SimulationConfig) (st : LoopState) (d : nat)
    : DailyRow :=
  let p_with_burn := price_with_burn_today cfg (supply st) d in
  let burned := service_loop (services cfg) p_with_burn in
  mkRow d (price_no_burn_today cfg d) p_with_burn
    (Rmax (supply st - fst burned) 1) (fst burned)
    (cumulative_burn st + fst burned) (snd burned).

(** The variables of the loop after the days [1 .. n], and when day [d]
    starts. *)
Definition state_after (cfg : SimulationConfig) (n : nat) : LoopState :=
  run_loop cfg (seq 1 n).

Definition state_before (cfg : SimulationConfig) (d : nat) : LoopState :=
  state_after cfg (d - 1).

(** The configuration with another number of days to simulate. *)
Definition with_days (cfg : SimulationConfig) (n : nat) : SimulationConfig :=
  mkConfig (initial_price cfg) (price_change_pct cfg) n (fixed_supply cfg)
    (services cfg).

(** ** Reading the table *)

(** The record of day [d]: the row at index [d - 1]. *)
Definition record_of_day (cfg : SimulationConfig) (d : nat)
    : option DailyRow :=
  match d with
  | O => None
  | S i => nth_error (simulate cfg) i
  end.

(** The supply a day starts with, read off the table alone:
    [fixed_supply] on day 1, the previous row's [remaining_supply] later. *)
Definition supply_at_start (cfg : SimulationConfig) (d : nat) : R :=
  match d with
  | O | S O => fixed_supply cfg
  | S (S i) =>
      match nth_error (simulate cfg) i with
      | Some r => remaining_supply r
      | None => fixed_supply cfg
      end
  end.

(** The cumulative burn a day starts with: [0] on day 1, the previous
    row's [cumulative_burned] later. *)
Definition cumulative_at_start (cfg : SimulationConfig) (d : nat) : R :=
  match d with
  | O | S O => 0
  | S (S i) =>
      match nth_error (simulate cfg) i with
      | Some r => cumulative_burned r
      | None => 0
      end
  end.

Definition sum_R (l : list R) : R := fold_right Rplus 0 l.

Definition all_volumes_zero (cfg : SimulationConfig) : Prop :=
  Forall (fun s => daily_volume s = 0) (services cfg).

(** ** Configurations of the scenarios *)

(** One day, one service with burn rate 2% and a volume of 25,000. *)
Definition one_day_config : SimulationConfig :=
  mkConfig 1 0 1 FIXED_SUPPLY [mkService "Mixer" (2 / 100) 25000].

(** A supply of 100 and one service that burns its whole volume [v]. *)
Definition small_supply_config (v : R) (n : nat) : SimulationConfig :=
  mkConfig 1 0 n 100 [mkService "Mixer" 1 v].

(** The script's supply, no price change and a service without volume. *)
Definition idle_config : SimulationConfig :=
  mkConfig 1 0 2 FIXED_SUPPLY [mkService "Mixer" (2 / 100) 0].

(** The script's supply with the lowest price the price input accepts and
    every volume slider at its maximum. *)
Definition max_volume_services : list Service :=
  [ mkService "Mixer" (2 / 100) 1000000;
    mkService "Merch-Shop" (2 / 10) 1000000;
    mkService "eSIM" (2 / 100) 1000000;
    mkService "Gift Card" (2 / 100) 1000000 ].

Definition max_volume_config (n : nat) : SimulationConfig :=
  mkConfig (1 / 100) 0 n FIXED_SUPPLY max_volume_services.

(** ** The loop on binary64 floats *)

(** The same loop on the numbers the script computes with: IEEE 754
    binary64, rounding to nearest.  [**] is not among the primitive
    operations on floats, so the loop takes the values of
    [daily_growth_factor ** day] as the function [growth].  With a yearly
    price change of 0 the factor is [1.0 ** (1 / 365)], which is [1.0], and
    so is each of its powers. *)
Module Binary64.

Import PrimFloat.
Local Open Scope float_scope.

(** Decimal literals stand for the nearest float, as they do in Python. *)
#[local] Set Warnings "-inexact-float".

Record FlService : Type := mkFlService {
  fl_service_name : string;
  fl_burn_rate : float;
  fl_daily_volume : float
}.

Record FlRow : Type := mkFlRow {
  fl_day : nat;
  fl_price_no_burn : float;
  fl_price_with_burn : float;
  fl_remaining_supply : float;
  fl_daily_burned_total : float;
  fl_cumulative_burned : float;
  fl_daily_burn_by_service : list (string * float)
}.

Record FlState : Type := mkFlState {
  fl_supply : float;
  fl_cumulative_burn : float;
  fl_table : list FlRow
}.

(** [max(supply, 1)]: [1] replaces [supply] when [1 > supply]. *)
Definition fl_max_1 (supply : float) : float :=
  if ltb supply 1 then 1 else supply.

(** [price_no_burn_today * (FIXED_SUPPLY / supply) if supply > 0
     else float("inf")] *)
Definition fl_price_with_burn_today (p_no_burn fixed supply : float)
    : float :=
  if ltb 0 supply then p_no_burn * (fixed / supply) else infinity.

Definition fl_service_step (p : float) (acc : float * list (string * float))
    (s : FlService) : float * list (string * float) :=
  let burn_amount := (fl_daily_volume s * fl_burn_rate s) / p in
  (fst acc + burn_amount,
   (snd acc ++ [(fl_service_name s, burn_amount)])%list).

Definition fl_loop_body (initial_price fixed : float) (growth : nat -> float)
    (svcs : list FlService) (st : FlState) (d : nat) : FlState :=
  let p_no_burn := initial_price * growth d in
  let p_with_burn :=
    fl_price_with_burn_today p_no_burn fixed (fl_supply st) in
  let burned := fold_left (fl_service_step p_with_burn) svcs (0, []) in
  let supply' := fl_max_1 (fl_supply st - fst burned) in
  let cumulative_burn' := fl_cumulative_burn st + fst burned in
  mkFlState supply' cumulative_burn'
    (fl_table st ++
     [mkFlRow d p_no_burn p_with_burn supply' (fst burned)
        cumulative_burn' (snd burned)])%list.

Definition fl_simulate (initial_price fixed : float) (growth : nat -> float)
    (svcs : list FlService) (n : nat) : list FlRow :=
  fl_table
    (fold_left (fl_loop_body initial_price fixed growth svcs) (seq 1 n)
       (mkFlState fixed 0 [])).



(** The script's constants and default volumes, an initial price of 1
    and a yearly price change of 0, for two days. *)
Definition fl_FIXED_SUPPLY : float := 100000000.



(** An initial price of 0.01, no yearly price change and every volume at
    1,000,000, for 70 days; and what the last day shows: it ends at the
    floor, burns a positive amount and has a [cumulative_burned] above
    [FIXED_SUPPLY - remaining_supply]. *)
Definition fl_max_volume_services : list FlService :=
  [ mkFlService "Mixer" 0.02 1000000;
    mkFlService "Merch-Shop" 0.2 1000000;
    mkFlService "eSIM" 0.02 1000000;
    mkFlService "Gift Card" 0.02 1000000 ].

Definition fl_max_volume_table : list FlRow :=
  fl_simulate 0.01 fl_FIXED_SUPPLY (fun _ => 1) fl_max_volume_services 70.

Definition fl_burned_beyond_floor (fixed : float) (r : FlRow) : bool :=
  eqb (fl_remaining_supply r) 1 &&
  ltb 0 (fl_daily_burned_total r) &&
  ltb (fixed - fl_remaining_supply r) (fl_cumulative_burned r).

End Binary64.

(** ** The script as it is written: dictionaries and parallel lists *)

(** A Python dictionary with string keys: its items in insertion order.
    A dictionary holds no key twice. *)
Definition dict (V : Type) : Type := list (string * V).

Definition dict_keys {V : Type} (d : dict V) : list string := map fst d.

(** [d[k]]; [None] stands for the [KeyError] of a missing key. *)
Fixpoint dict_get {V : Type} (d : dict V) (k : string) : option V :=
  match d with
  | [] => None
  | (k', v) :: d' => if String.eqb k k' then Some v else dict_get d' k
  end.

(** [d[k] = v]: the value of a key already there is replaced in place, a
    new key goes to the end. *)
Fixpoint dict_set {V : Type} (d : dict V) (k : string) (v : V) : dict V :=
  match d with
  | [] => [(k, v)]
  | (k', v') :: d' =>
      if String.eqb k k' then (k', v) :: d' else (k', v') :: dict_set d' k v
  end.

(** [d[k].append(x)] on a dictionary of lists. *)
Definition dict_append (d : dict (list R)) (k : string) (x : R)
    : option (dict (list R)) :=
  match dict_get d k with
  | Some l => Some (dict_set d k (l ++ [x]))
  | None => None
  end.

(** The two dictionaries the script writes down. *)
Definition burn_rates : dict R :=
  [ ("Mixer"%string, 2 / 100); ("Merch-Shop"%string, 2 / 10);
    ("eSIM"%string, 2 / 100); ("Gift Card"%string, 2 / 100) ].

Definition default_volumes : dict R :=
  [ ("Mixer"%string, 25000); ("Merch-Shop"%string, 5000);
    ("eSIM"%string, 10000); ("Gift Card"%string, 20000) ].

(** The sidebar loop [for service, burn_rate in burn_rates.items()].
    [slider service default] is the value the slider of the service
    returns when it is created with the default [default_volumes[service]].
    The loop fills [service_volumes] and shows, per service, the estimated
    burn of day 1, [(volume * burn_rate) / estimated_price_with_burn_today],
    where the estimated price is [initial_price]. *)
Definition sidebar_step (defaults : dict R) (slider : string -> R -> R)
    (estimated_price_with_burn_today : R)
    (acc : option (dict R * list (string * R))) (item : string * R)
    : option (dict R * list (string * R)) :=
  match acc with
  | None => None
  | Some (service_volumes, estimates) =>
      match dict_get defaults (fst item) with
      | None => None
      | Some default =>
          let volume := slider (fst item) default in
          let tokens_burned :=
            volume * snd item / estimated_price_with_burn_today in
          Some (dict_set service_volumes (fst item) volume,
                estimates ++ [(fst item, tokens_burned)])
      end
  end.

Definition sidebar_loop (rates defaults : dict R) (slider : string -> R -> R)
    (estimated_price_with_burn_today : R)
    : option (dict R * list (string * R)) :=
  fold_left (sidebar_step defaults slider estimated_price_with_burn_today)
    rates (Some ([], [])).

(** The default of a service's slider, for a key that is there. *)
Definition default_of (defaults : dict R) (k : string) : R :=
  match dict_get defaults k with
  | Some v => v
  | None => 0
  end.

(** The services the loop iterates over, when the sidebar has run on
    [rates]: burn rate from [rates], volume from the slider. *)
Definition script_services (rates defaults : dict R)
    (slider : string -> R -> R) : list Service :=
  map (fun item =>
         mkService (fst item) (snd item)
           (slider (fst item) (default_of defaults (fst item))))
    rates.

(** The variables of the simulation loop as the script has them: the
    running [supply] and [cumulative_burn], the five lists and the
    dictionary of per-service lists it appends to. *)
Record ScriptState : Type := mkScriptState {
  cur_supply : R;
  cur_cumulative_burn : R;
  col_price_no_burn : list R;
  col_price_with_burn : list Price;
  col_remaining_supply : list R;
  col_cumulative_burned : list R;
  col_daily_burned_total : list R;
  col_daily_burn_by_service : dict (list R)
}.

(** [daily_burn_by_service = {service: [] for service in burn_rates}] *)
Definition script_initial (cfg : SimulationConfig) (rates : dict R)
    : ScriptState :=
  mkScriptState (fixed_supply cfg) 0 [] [] [] [] []
    (map (fun item => (fst item, [])) rates).

(** The body of [for service, volume in service_volumes.items()]: it
    looks the burn rate up in [burn_rates] and appends the burn to the
    service's list; either lookup can raise [KeyError]. *)
Definition script_service_step (rates : dict R) (p : Price)
    (acc : option (R * dict (list R))) (item : string * R)
    : option (R * dict (list R)) :=
  match acc with
  | None => None
  | Some (burned_today_total, by_service) =>
      match dict_get rates (fst item) with
      | None => None
      | Some rate =>
          let amount := div_price (snd item * rate) p in
          match dict_append by_service (fst item) amount with
          | None => None
          | Some by_service' => Some (burned_today_total + amount, by_service')
          end
      end
  end.

(** The body of [for day in days], on the script's own variables. *)
Definition script_loop_body (cfg : SimulationConfig)
    (rates service_volumes : dict R) (acc : option ScriptState) (d : nat)
    : option ScriptState :=
  match acc with
  | None => None
  | Some st =>
      let p_no_burn := price_no_burn_today cfg d in
      let p_with_burn := price_with_burn_today cfg (cur_supply st) d in
      match fold_left (script_service_step rates p_with_burn)
              service_volumes (Some (0, col_daily_burn_by_service st)) with
      | None => None
      | Some (burned_today_total, by_service) =>
          let supply' := Rmax (cur_supply st - burned_today_total) 1 in
          let cumulative_burn' := cur_cumulative_burn st + burned_today_total in
          Some (mkScriptState supply' cumulative_burn'
                  (col_price_no_burn st ++ [p_no_burn])
                  (col_price_with_burn st ++ [p_with_burn])
                  (col_remaining_supply st ++ [supply'])
                  (col_cumulative_burned st ++ [cumulative_burn'])
                  (col_daily_burned_total st ++ [burned_today_total])
                  by_service)
      end
  end.

Definition script_loop (cfg : SimulationConfig)
    (rates service_volumes : dict R) : option ScriptState :=
  fold_left (script_loop_body cfg rates service_volumes) (days cfg)
    (Some (script_initial cfg rates)).

(** The data frame: one row per index of the [Day] column, read from the
    lists at that index.  Building it fails when a list has another
    length than the [Day] column. *)
Definition columns_fit (n : nat) (st : ScriptState) : bool :=
  (length (col_price_no_burn st) =? n)%nat &&
  (length (col_price_with_burn st) =? n)%nat &&
  (length (col_remaining_supply st) =? n)%nat &&
  (length (col_cumulative_burned st) =? n)%nat &&
  (length (col_daily_burned_total st) =? n)%nat &&
  forallb (fun item => (length (snd item) =? n)%nat)
    (col_daily_burn_by_service st).

Definition data_frame_row (ds : list nat) (st : ScriptState) (i : nat)
    : DailyRow :=
  mkRow (nth i ds 0%nat)
    (nth i (col_price_no_burn st) 0)
    (nth i (col_price_with_burn st) Infinity)
    (nth i (col_remaining_supply st) 0)
    (nth i (col_daily_burned_total st) 0)
    (nth i (col_cumulative_burned st) 0)
    (map (fun item => (fst item, nth i (snd item) 0))
       (col_daily_burn_by_service st)).

Definition data_frame (ds : list nat) (st : ScriptState)
    : option (list DailyRow) :=
  if columns_fit (length ds) st
  then Some (map (data_frame_row ds st) (seq 0 (length ds)))
  else None.

(** The script from the sidebar to the data frame. *)
Definition script_table (cfg : SimulationConfig) (rates defaults : dict R)
    (slider : string -> R -> R) : option (list DailyRow) :=
  match sidebar_loop rates defaults slider (initial_price cfg) with
  | None => None
  | Some (service_volumes, _) =>
      match script_loop cfg rates service_volumes with
      | None => None
      | Some st => data_frame (days cfg) st
      end
  end.

(** [np.mean] of a list, and the sidebar's average daily burn per
    service, [np.mean(daily_burn_by_service[service])] for each service
    in [burn_rates]. *)
Definition mean (l : list R) : R := sum_R l / INR (length l).

Fixpoint average_daily_burn (rates : dict R) (by_service : dict (list R))
    : option (list (string * R)) :=
  match rates with
  | [] => Some []
  | item :: rates' =>
      match dict_get by_service (fst item) with
      | None => None
      | Some burn_list =>
          match average_daily_burn rates' by_service with
          | None => None
          | Some avgs => Some ((fst item, mean burn_list) :: avgs)
          end
      end
  end.

(** A slider left where it starts. *)
Definition untouched_slider (service : string) (default : R) : R := default.

(** ** The table seen as columns *)

(** The per-service lists that belong to a list of rows: the list of the
    first service holds the first entry of every row, and so on. *)
Fixpoint service_columns (names : list string) (rows : list (list R))
    : dict (list R) :=
  match names with
  | [] => []
  | k :: names' =>
      (k, map (hd 0) rows) :: service_columns names' (map (@tl R) rows)
  end.

(** Appending one value to each list of a dictionary of lists. *)
Fixpoint append_each (d : dict (list R)) (xs : list R) : dict (list R) :=
  match d, xs with
  | (k, l) :: d', x :: xs' => (k, l ++ [x]) :: append_each d' xs'
  | _, _ => []
  end.

Definition row_amounts (r : DailyRow) : list R :=
  map snd (daily_burn_by_service r).

(** The script's variables that correspond to a state of the loop on
    rows. *)
Definition script_state_of (names : list string) (st : LoopState)
    : ScriptState :=
  mkScriptState (supply st) (cumulative_burn st)
    (map price_no_burn (table st))
    (map price_with_burn (table st))
    (map remaining_supply (table st))
    (map cumulative_burned (table st))
    (map daily_burned_total (table st))
    (service_columns names (map row_amounts (table st))).

(** ** Tactics for concrete configurations *)

Ltac valid_config_by_computation :=
  cbv [valid_config valid_service default_config default_services
       idle_config one_day_config small_supply_config max_volume_config
       max_volume_services with_days
       initial_price price_change_pct days_to_simulate fixed_supply
       services burn_rate daily_volume FIXED_SUPPLY];
  repeat match goal with
         | |- _ /\ _ => split
         | |- Forall _ (_ :: _) => apply Forall_cons
         | |- Forall _ [] => apply Forall_nil
         end;
  try lia; lra.

Ltac day_in_range := cbn; lia.

Ltac distinct_keys :=
  cbv [dict_keys burn_rates map fst];
  repeat (apply NoDup_cons; [cbn; intuition discriminate|]);
  apply NoDup_nil.

Ltac defaults_present :=
  let k := fresh "k" in
  intros k [<-|[<-|[<-|[<-|[]]]]]; cbn; discriminate.

(** ** Structure of the loop *)

Lemma run_loop_snoc (cfg : SimulationConfig) (n : nat) :
  run_loop cfg (seq 1 (S n)) = loop_body cfg (run_loop cfg (seq 1 n)) (S n).
Proof.
  unfold run_loop. rewrite seq_S, fold_left_app. reflexivity.
Qed.

Lemma state_after_S (cfg : SimulationConfig) (n : nat) :
  state_after cfg (S n) = loop_body cfg (state_after cfg n) (S n).
Proof. apply run_loop_snoc. Qed.

Lemma table_loop_body (cfg : SimulationConfig) (st : LoopState) (d : nat) :
  table (loop_body cfg st d) = table st ++ [day_row cfg st d].
Proof. reflexivity. Qed.

Lemma supply_loop_body (cfg : SimulationConfig) (st : LoopState) (d : nat) :
  supply (loop_body cfg st d) = remaining_supply (day_row cfg st d).
Proof. reflexivity. Qed.

Lemma cumulative_loop_body (cfg : SimulationConfig) (st : LoopState) (d : nat) :
  cumulative_burn (loop_body cfg st d) = cumulative_burned (day_row cfg st d).
Proof. reflexivity. Qed.

Lemma table_run_loop_length (cfg : SimulationConfig) (n : nat) :
  length (table (run_loop cfg (seq 1 n))) = n.
Proof.
  induction n as [|n IH]; [reflexivity|].
  rewrite run_loop_snoc. simpl. rewrite length_app, IH. simpl. lia.
Qed.

Lemma table_run_loop_days (cfg : SimulationConfig) (n : nat) :
  map day (table (run_loop cfg (seq 1 n))) = seq 1 n.
Proof.
  induction n as [|n IH]; [reflexivity|].
  rewrite run_loop_snoc, seq_S. simpl. rewrite map_app, IH. reflexivity.
Qed.

(** C4: the table has one row per simulated day, the rows carry the days
    1, 2, ..., [days_to_simulate] in this order, and with no day to
    simulate the table is empty. *)
Theorem simulate_length_and_order (cfg : SimulationConfig) :
  length (simulate cfg) = days_to_simulate cfg /\
  map day (simulate cfg) = seq 1 (days_to_simulate cfg) /\
  simulate (with_days cfg 0) = [].
Proof.
  unfold simulate, days. split; [|split].
  - apply table_run_loop_length.
  - apply table_run_loop_days.
  - reflexivity.
Qed.

(** The row at index [i] is the one the body built on day [i + 1], from
    the state the days before it left. *)
Lemma nth_error_table (cfg : SimulationConfig) (n i : nat) :
  (i < n)%nat ->
  nth_error (table (state_after cfg n)) i =
  Some (day_row cfg (state_after cfg i) (S i)).
Proof.
  induction n as [|n IH]; intros Hi; [lia|].
  rewrite state_after_S, table_loop_body.
  destruct (Nat.eq_dec i n) as [->|Hne].
  - rewrite nth_error_app2; unfold state_after;
      rewrite table_run_loop_length; [|lia].
    rewrite Nat.sub_diag. reflexivity.
  - rewrite nth_error_app1;
      [|unfold state_after; rewrite table_run_loop_length; lia].
    apply IH. lia.
Qed.

Lemma record_of_day_row (cfg : SimulationConfig) (d : nat) :
  (1 <= d <= days_to_simulate cfg)%nat ->
  record_of_day cfg d = Some (day_row cfg (state_before cfg d) d).
Proof.
  intros Hd. destruct d as [|i]; [lia|].
  unfold record_of_day, state_before, simulate, days.
  simpl. rewrite Nat.sub_0_r.
  apply (nth_error_table cfg (days_to_simulate cfg) i). lia.
Qed.

Lemma record_of_day_inv (cfg : SimulationConfig) (d : nat) (row : DailyRow) :
  record_of_day cfg d = Some row ->
  (1 <= d <= days_to_simulate cfg)%nat /\
  row = day_row cfg (state_before cfg d) d.
Proof.
  intros H.
  assert (Hd : (1 <= d <= days_to_simulate cfg)%nat).
  { destruct d as [|i]; [discriminate|].
    simpl in H.
    assert (Hlt : (i < length (simulate cfg))%nat)
      by (apply nth_error_Some; congruence).
    unfold simulate, days in Hlt. rewrite table_run_loop_length in Hlt. lia. }
  split; [exact Hd|].
  rewrite (record_of_day_row cfg d Hd) in H. congruence.
Qed.

Lemma state_before_S (cfg : SimulationConfig) (d : nat) :
  (1 <= d)%nat ->
  state_before cfg (S d) = loop_body cfg (state_before cfg d) d.
Proof.
  intros Hd. destruct d as [|i]; [lia|].
  unfold state_before. simpl. rewrite Nat.sub_0_r. apply state_after_S.
Qed.

(** What the table says a day starts with is what the loop holds then. *)
Lemma supply_at_start_state (cfg : SimulationConfig) (d : nat) :
  (1 <= d <= days_to_simulate cfg)%nat ->
  supply_at_start cfg d = supply (state_before cfg d).
Proof.
  intros Hd. destruct d as [|[|i]]; [lia|reflexivity|].
  unfold supply_at_start.
  change (nth_error (simulate cfg) i) with (record_of_day cfg (S i)).
  rewrite record_of_day_row by lia.
  rewrite (state_before_S cfg (S i)) by lia. reflexivity.
Qed.

Lemma cumulative_at_start_state (cfg : SimulationConfig) (d : nat) :
  (1 <= d <= days_to_simulate cfg)%nat ->
  cumulative_at_start cfg d = cumulative_burn (state_before cfg d).
Proof.
  intros Hd. destruct d as [|[|i]]; [lia|reflexivity|].
  unfold cumulative_at_start.
  change (nth_error (simulate cfg) i) with (record_of_day cfg (S i)).
  rewrite record_of_day_row by lia.
  rewrite (state_before_S cfg (S i)) by lia. reflexivity.
Qed.

(** ** The inner loop *)

Lemma service_loop_acc (p : Price) (svcs : list Service)
    (acc : R * list (string * R)) :
  fold_left (service_step p) svcs acc =
  (fst acc + sum_R (map (fun s => burn_amount s p) svcs),
   snd acc ++ map (fun s => (service_name s, burn_amount s p)) svcs).
Proof.
  revert acc. induction svcs as [|s svcs IH]; intros acc; simpl.
  - rewrite Rplus_0_r, app_nil_r. destruct acc; reflexivity.
  - rewrite IH. simpl. rewrite <- app_assoc. simpl. f_equal. unfold sum_R. lra.
Qed.

Lemma service_loop_total (svcs : list Service) (p : Price) :
  fst (service_loop svcs p) = sum_R (map (fun s => burn_amount s p) svcs).
Proof.
  unfold service_loop. rewrite service_loop_acc. simpl. lra.
Qed.

Lemma service_loop_by_service (svcs : list Service) (p : Price) :
  snd (service_loop svcs p) =
  map (fun s => (service_name s, burn_amount s p)) svcs.
Proof.
  unfold service_loop. rewrite service_loop_acc. reflexivity.
Qed.

Lemma burn_amount_nonneg (s : Service) (q : R) :
  valid_service s -> 0 < q -> 0 <= burn_amount s (Finite q).
Proof.
  intros [[Hr _] Hv] Hq. unfold burn_amount, div_price.
  apply Rmult_le_pos; [nra|]. left. apply Rinv_0_lt_compat. exact Hq.
Qed.

Lemma service_loop_total_nonneg (svcs : list Service) (q : R) :
  Forall valid_service svcs -> 0 < q ->
  0 <= fst (service_loop svcs (Finite q)).
Proof.
  intros Hs Hq. rewrite service_loop_total.
  induction Hs as [|s svcs Hv _ IH]; cbn [map sum_R fold_right]; [lra|].
  pose proof (burn_amount_nonneg s q Hv Hq).
  fold (sum_R (map (fun s => burn_amount s (Finite q)) svcs)). lra.
Qed.

Lemma service_loop_total_zero (svcs : list Service) (p : Price) :
  Forall (fun s => daily_volume s = 0) svcs ->
  fst (service_loop svcs p) = 0.
Proof.
  intros Hs. rewrite service_loop_total.
  induction Hs as [|s svcs Hv _ IH]; cbn [map sum_R fold_right];
    [reflexivity|].
  fold (sum_R (map (fun s => burn_amount s p) svcs)).
  rewrite IH. unfold burn_amount. rewrite Hv.
  destruct p; simpl; unfold Rdiv; lra.
Qed.

(** ** Prices *)

Lemma daily_growth_factor_pos (cfg : SimulationConfig) :
  0 < daily_growth_factor cfg.
Proof. unfold daily_growth_factor, Rpower. apply exp_pos. Qed.

Lemma daily_growth_factor_flat (cfg : SimulationConfig) :
  price_change_pct cfg = 0 -> daily_growth_factor cfg = 1.
Proof.
  intros H. unfold daily_growth_factor, Rpower. rewrite H.
  replace (1 + 0 / 100) with 1 by lra.
  rewrite ln_1, Rmult_0_r. apply exp_0.
Qed.

Lemma price_no_burn_today_pos (cfg : SimulationConfig) (d : nat) :
  0 < initial_price cfg -> 0 < price_no_burn_today cfg d.
Proof.
  intros H. unfold price_no_burn_today.
  apply Rmult_lt_0_compat; [exact H|].
  apply pow_lt, daily_growth_factor_pos.
Qed.

Lemma price_with_burn_today_finite (cfg : SimulationConfig) (s : R) (d : nat) :
  0 < s ->
  price_with_burn_today cfg s d =
  Finite (price_no_burn_today cfg d * (fixed_supply cfg / s)).
Proof.
  intros Hs. unfold price_with_burn_today.
  destruct (Rlt_dec 0 s) as [_|Hn]; [reflexivity|contradiction].
Qed.

Lemma scarcity_price_pos (cfg : SimulationConfig) (s : R) (d : nat) :
  0 < initial_price cfg -> 0 < fixed_supply cfg -> 0 < s ->
  0 < price_no_burn_today cfg d * (fixed_supply cfg / s).
Proof.
  intros Hp Hf Hs.
  apply Rmult_lt_0_compat; [apply price_no_burn_today_pos; exact Hp|].
  apply Rdiv_lt_0_compat; assumption.
Qed.

(** ** Invariants of the outer loop *)

Lemma supply_state_after_pos (cfg : SimulationConfig) (n : nat) :
  0 < fixed_supply cfg -> 0 < supply (state_after cfg n).
Proof.
  intros Hf. destruct n as [|n]; [exact Hf|].
  rewrite state_after_S. cbn [loop_body supply].
  apply Rlt_le_trans with 1; [lra|apply Rmax_r].
Qed.

Lemma supply_state_after_floor (cfg : SimulationConfig) (n : nat) :
  1 <= supply (state_after cfg (S n)).
Proof. rewrite state_after_S. cbn [loop_body supply]. apply Rmax_r. Qed.

Lemma supply_state_before_pos (cfg : SimulationConfig) (d : nat) :
  0 < fixed_supply cfg -> 0 < supply (state_before cfg d).
Proof. apply supply_state_after_pos. Qed.

Lemma day_row_price (cfg : SimulationConfig) (st : LoopState) (d : nat) :
  0 < supply st ->
  price_with_burn (day_row cfg st d) =
  Finite (price_no_burn_today cfg d * (fixed_supply cfg / supply st)).
Proof. intros Hs. apply price_with_burn_today_finite, Hs. Qed.

Lemma day_row_burned_nonneg (cfg : SimulationConfig) (st : LoopState)
    (d : nat) :
  valid_config cfg -> 0 < supply st ->
  0 <= daily_burned_total (day_row cfg st d).
Proof.
  intros (Hp & _ & _ & Hf & Hs) Hst. cbn [day_row daily_burned_total].
  rewrite price_with_burn_today_finite by exact Hst.
  apply service_loop_total_nonneg; [exact Hs|].
  apply scarcity_price_pos; assumption.
Qed.

Lemma day_row_remaining_floor (cfg : SimulationConfig) (st : LoopState)
    (d : nat) :
  1 <= remaining_supply (day_row cfg st d).
Proof. apply Rmax_r. Qed.

Lemma day_row_remaining_le (cfg : SimulationConfig) (st : LoopState)
    (d : nat) :
  valid_config cfg -> 1 <= supply st ->
  remaining_supply (day_row cfg st d) <= supply st.
Proof.
  intros Hv Hst.
  assert (Hb : 0 <= daily_burned_total (day_row cfg st d))
    by (apply day_row_burned_nonneg; [exact Hv|lra]).
  cbn [day_row remaining_supply daily_burned_total] in *.
  apply Rmax_lub; lra.
Qed.

(** The supply never rises above the larger of [fixed_supply] and the
    floor. *)
Lemma supply_state_after_le (cfg : SimulationConfig) (n : nat) :
  valid_config cfg -> 1 <= fixed_supply cfg ->
  supply (state_after cfg n) <= fixed_supply cfg.
Proof.
  intros Hv Hf. induction n as [|n IH]; [simpl; lra|].
  assert (Hpos : 0 < supply (state_after cfg n))
    by (apply supply_state_after_pos; lra).
  pose proof (day_row_burned_nonneg cfg (state_after cfg n) (S n) Hv Hpos)
    as Hb.
  rewrite state_after_S, supply_loop_body.
  cbn [day_row remaining_supply daily_burned_total] in *.
  apply Rmax_lub; lra.
Qed.


(** C1: under a valid configuration the record of day [d] exists, has
    [price_no_burn = initial_price * daily_growth_factor ^ d] with
    [daily_growth_factor = (1 + yearly_price_change_pct / 100) ^ (1 / 365)],
    and [price_with_burn = price_no_burn * (fixed_supply / supply)], where
    [supply] is [fixed_supply] on day 1 and the [remaining_supply] of the
    record of day [d - 1] later. *)
Theorem price_columns_formula (cfg : SimulationConfig) (d : nat) :
  valid_config cfg ->
  (1 <= d <= days_to_simulate cfg)%nat ->
  exists row,
    record_of_day cfg d = Some row /\
    day row = d /\
    daily_growth_factor cfg =
      Rpower (1 + price_change_pct cfg / 100) (1 / 365) /\
    price_no_burn row = initial_price cfg * daily_growth_factor cfg ^ d /\
    price_with_burn row =
      Finite (price_no_burn row * (fixed_supply cfg / supply_at_start cfg d)).
Proof.
  intros Hv Hd. exists (day_row cfg (state_before cfg d) d).
  split; [apply record_of_day_row, Hd|].
  split; [reflexivity|]. split; [reflexivity|]. split; [reflexivity|].
  rewrite supply_at_start_state by exact Hd.
  apply day_row_price, supply_state_before_pos.
  destruct Hv as (_ & _ & _ & Hf & _). exact Hf.
Qed.

(** C2: under a valid configuration every recorded [remaining_supply] is
    at least 1, and from each day to the next it does not increase. *)
Theorem remaining_supply_floor_and_monotone (cfg : SimulationConfig) :
  valid_config cfg ->
  (forall d row, record_of_day cfg d = Some row ->
     1 <= remaining_supply row) /\
  (forall d row row',
     record_of_day cfg d = Some row ->
     record_of_day cfg (S d) = Some row' ->
     remaining_supply row' <= remaining_supply row).
Proof.
  intros Hv. split.
  - intros d row H. apply record_of_day_inv in H as [_ ->].
    apply day_row_remaining_floor.
  - intros d row row' H H'.
    apply record_of_day_inv in H as [Hd ->].
    apply record_of_day_inv in H' as [_ ->].
    rewrite state_before_S by lia.
    pose proof (day_row_remaining_le cfg
                  (loop_body cfg (state_before cfg d) d) (S d) Hv) as Hle.
    rewrite supply_loop_body in Hle.
    apply Hle, day_row_remaining_floor.
Qed.

(** ** Cumulative burn *)

(** ** The scenarios *)

Lemma price_no_burn_today_flat (cfg : SimulationConfig) (d : nat) :
  price_change_pct cfg = 0 -> price_no_burn_today cfg d = initial_price cfg.
Proof.
  intros H. unfold price_no_burn_today.
  rewrite daily_growth_factor_flat by exact H. rewrite pow1. lra.
Qed.

(** What a day does to a supply of 100 tokens, or of 1 token, when the one
    service burns its whole volume [v] at a no-burn price of 1. *)
Lemma small_supply_first_day (v : R) (n d : nat) (st : LoopState) :
  100 < v -> supply st = 100 ->
  day_row (small_supply_config v n) st d =
  mkRow d 1 (Finite 1) 1 v (cumulative_burn st + v) [("Mixer"%string, v)].
Proof.
  intros Hv Hst. unfold day_row. rewrite Hst.
  rewrite price_with_burn_today_finite by lra.
  rewrite price_no_burn_today_flat by reflexivity.
  cbn [small_supply_config initial_price fixed_supply services].
  replace (1 * (100 / 100)) with 1 by lra.
  rewrite service_loop_total, service_loop_by_service.
  cbn [map sum_R fold_right burn_amount div_price daily_volume burn_rate
       service_name].
  replace (v * 1 / 1) with v by lra. rewrite Rplus_0_r.
  rewrite Rmax_right by lra. reflexivity.
Qed.

Lemma small_supply_later_day (v : R) (n d : nat) (st : LoopState) :
  100 < v -> supply st = 1 ->
  day_row (small_supply_config v n) st d =
  mkRow d 1 (Finite 100) 1 (v / 100) (cumulative_burn st + v / 100)
    [("Mixer"%string, v / 100)].
Proof.
  intros Hv Hst. unfold day_row. rewrite Hst.
  rewrite price_with_burn_today_finite by lra.
  rewrite price_no_burn_today_flat by reflexivity.
  cbn [small_supply_config initial_price fixed_supply services].
  replace (1 * (100 / 1)) with 100 by lra.
  rewrite service_loop_total, service_loop_by_service.
  cbn [map sum_R fold_right burn_amount div_price daily_volume burn_rate
       service_name].
  replace (v * 1 / 100) with (v / 100) by lra. rewrite Rplus_0_r.
  rewrite Rmax_right by lra. reflexivity.
Qed.

Lemma small_supply_state_after (v : R) (n i : nat) :
  100 < v -> supply (state_after (small_supply_config v n) (S i)) = 1.
Proof.
  intros Hv. induction i as [|i IH].
  - rewrite state_after_S, supply_loop_body.
    rewrite small_supply_first_day by (exact Hv || reflexivity). reflexivity.
  - rewrite state_after_S, supply_loop_body.
    rewrite small_supply_later_day by assumption. reflexivity.
Qed.

Lemma small_supply_record (v : R) (n d : nat) (row : DailyRow) :
  100 < v ->
  record_of_day (small_supply_config v n) d = Some row ->
  remaining_supply row = 1 /\
  cumulative_at_start (small_supply_config v n) d < cumulative_burned row /\
  (d = 1%nat -> daily_burned_total row = v).
Proof.
  intros Hv H. apply record_of_day_inv in H as [Hd ->].
  rewrite cumulative_at_start_state by exact Hd.
  destruct d as [|[|i]]; [lia| |].
  - rewrite small_supply_first_day by (exact Hv || reflexivity).
    cbn [remaining_supply cumulative_burned daily_burned_total].
    repeat split; lra.
  - rewrite small_supply_later_day;
      [|exact Hv|apply (small_supply_state_after v n i Hv)].
    cbn [remaining_supply cumulative_burned daily_burned_total].
    repeat split; try lra. intros Habs. discriminate Habs.
Qed.

(** ** Every volume at its maximum *)







(** The day the theorem above shows for the floor, on the script's
    floats: day 70 of the run with every volume at its maximum ends at
    the floor, has burned a positive amount, and its [cumulative_burned]
    is above [FIXED_SUPPLY - remaining_supply]. *)
Lemma max_volume_day_70_in_binary64 :
  option_map (Binary64.fl_burned_beyond_floor Binary64.fl_FIXED_SUPPLY)
    (nth_error Binary64.fl_max_volume_table 69) = Some true.
Proof. vm_compute. reflexivity. Qed.

(** C5: under a valid configuration the record of day [d] has a finite
    [price_with_burn]; its per-service column entries are
    [(daily_volume * burn_rate) / price_with_burn], one per configured
    service in the configured order; and its [daily_burned_total] is the
    sum of these entries. *)
Theorem daily_total_is_sum_of_services (cfg : SimulationConfig) (d : nat) :
  valid_config cfg ->
  (1 <= d <= days_to_simulate cfg)%nat ->
  exists row p,
    record_of_day cfg d = Some row /\
    price_with_burn row = Finite p /\
    daily_burn_by_service row =
      map (fun s => (service_name s, daily_volume s * burn_rate s / p))
        (services cfg) /\
    daily_burned_total row = sum_R (map snd (daily_burn_by_service row)).
Proof.
  intros Hv Hd.
  assert (Hs : 0 < supply (state_before cfg d))
    by (apply supply_state_before_pos, Hv).
  exists (day_row cfg (state_before cfg d) d).
  exists (price_no_burn_today cfg d *
          (fixed_supply cfg / supply (state_before cfg d))).
  split; [apply record_of_day_row, Hd|].
  split; [apply day_row_price, Hs|].
  cbn [day_row daily_burn_by_service daily_burned_total].
  rewrite price_with_burn_today_finite by exact Hs.
  rewrite service_loop_total, service_loop_by_service.
  split; [reflexivity|].
  rewrite map_map. reflexivity.
Qed.

(** C7: with an initial price of 1, no yearly price change, one day, a
    fixed supply of 100,000,000 and one service with burn rate 0.02 and a
    daily volume of 25,000, the table is the single row of day 1 with
    [price_no_burn = 1], [price_with_burn = 1], a service burn of 500,
    [remaining_supply = 99,999,500] and [cumulative_burned = 500]. *)
Theorem one_day_scenario :
  simulate one_day_config =
  [mkRow 1 1 (Finite 1) 99999500 500 500 [("Mixer"%string, 500)]].
Proof.
  change (simulate one_day_config)
    with [day_row one_day_config (initial_state one_day_config) 1].
  f_equal. unfold day_row.
  cbn [initial_state supply cumulative_burn one_day_config fixed_supply].
  rewrite price_with_burn_today_finite by (unfold FIXED_SUPPLY; lra).
  rewrite price_no_burn_today_flat by reflexivity.
  cbn [one_day_config initial_price fixed_supply services].
  replace (1 * (FIXED_SUPPLY / FIXED_SUPPLY)) with 1
    by (unfold FIXED_SUPPLY; lra).
  rewrite service_loop_total, service_loop_by_service.
  cbn [map sum_R fold_right burn_amount div_price daily_volume burn_rate
       service_name].
  replace (25000 * (2 / 100) / 1) with 500 by lra.
  rewrite Rplus_0_r, Rplus_0_l.
  rewrite Rmax_left by (unfold FIXED_SUPPLY; lra).
  replace (FIXED_SUPPLY - 500) with 99999500 by (unfold FIXED_SUPPLY; lra).
  reflexivity.
Qed.

(** C8: with a fixed supply of 100, no yearly price change, an initial
    price of 1 and one service with burn rate 1 whose daily volume [v]
    makes the burn of day 1 exceed 100 tokens ([v > 100]), every record
    has [remaining_supply = 1], every day's [cumulative_burned] is
    strictly above the value the day started with, and the burn of day 1
    is [v]. *)
Theorem small_supply_scenario (v : R) (n d : nat) :
  100 < v ->
  (1 <= d <= n)%nat ->
  exists row,
    record_of_day (small_supply_config v n) d = Some row /\
    remaining_supply row = 1 /\
    cumulative_at_start (small_supply_config v n) d < cumulative_burned row /\
    (d = 1%nat -> daily_burned_total row = v).
Proof.
  intros Hv Hd.
  pose proof (record_of_day_row (small_supply_config v n) d Hd) as Hrow.
  eexists. split; [exact Hrow|].
  apply (small_supply_record v n d _ Hv Hrow).
Qed.

(** C9: under a valid configuration with [fixed_supply >= 1], when a day
    starts the running supply is positive, so the loop takes the finite
    branch for [price_with_burn_today], and that price is positive: both
    divisors of the day, the supply and the price, are non-zero.  The row
    recorded for the day is the one built from these values. *)
Theorem supply_positive_every_day (cfg : SimulationConfig) (d : nat) :
  valid_config cfg ->
  1 <= fixed_supply cfg ->
  (1 <= d <= days_to_simulate cfg)%nat ->
  0 < supply (state_before cfg d) /\
  supply_at_start cfg d = supply (state_before cfg d) /\
  (exists p,
     price_with_burn_today cfg (supply (state_before cfg d)) d = Finite p /\
     0 < p) /\
  record_of_day cfg d = Some (day_row cfg (state_before cfg d) d).
Proof.
  intros Hv Hf Hd.
  assert (Hs : 0 < supply (state_before cfg d))
    by (apply supply_state_before_pos; lra).
  split; [exact Hs|].
  split; [apply supply_at_start_state, Hd|].
  split; [|apply record_of_day_row, Hd].
  eexists. split; [apply price_with_burn_today_finite, Hs|].
  apply scarcity_price_pos; [apply Hv|lra|exact Hs].
Qed.

(** ** Configurations without volume *)

Lemma zero_volume_supply_constant (cfg : SimulationConfig) (n : nat) :
  1 <= fixed_supply cfg -> all_volumes_zero cfg ->
  supply (state_after cfg n) = fixed_supply cfg.
Proof.
  intros Hf Hz. induction n as [|n IH]; [reflexivity|].
  rewrite state_after_S. cbn [loop_body supply].
  rewrite service_loop_total_zero by exact Hz.
  rewrite IH, Rminus_0_r. apply Rmax_left. exact Hf.
Qed.

(** C6: under a valid configuration whose services all have a daily
    volume of 0, the record of every day has
    [price_with_burn = price_no_burn] and
    [remaining_supply = fixed_supply]; if moreover the yearly price change
    is 0, [price_no_burn = initial_price].  The fixed supply has to reach
    the floor of 1, as the script's [FIXED_SUPPLY] of 100,000,000 does. *)
Theorem zero_volume_flat_lines (cfg : SimulationConfig) (d : nat) :
  valid_config cfg ->
  1 <= fixed_supply cfg ->
  all_volumes_zero cfg ->
  (1 <= d <= days_to_simulate cfg)%nat ->
  exists row,
    record_of_day cfg d = Some row /\
    price_with_burn row = Finite (price_no_burn row) /\
    remaining_supply row = fixed_supply cfg /\
    (price_change_pct cfg = 0 -> price_no_burn row = initial_price cfg).
Proof.
  intros Hv Hf Hz Hd.
  exists (day_row cfg (state_before cfg d) d).
  split; [apply record_of_day_row, Hd|].
  assert (Hs : supply (state_before cfg d) = fixed_supply cfg)
    by (apply zero_volume_supply_constant; assumption).
  split; [|split].
  - rewrite day_row_price by (rewrite Hs; lra).
    rewrite Hs. cbn [day_row price_no_burn]. f_equal. field. lra.
  - cbn [day_row remaining_supply].
    rewrite service_loop_total_zero by exact Hz.
    rewrite Hs, Rminus_0_r. apply Rmax_left. exact Hf.
  - intros Hflat. apply price_no_burn_today_flat, Hflat.
Qed.

(** C10: under a valid configuration the record of every day has a
    finite [price_with_burn] that is at least its [price_no_burn].  The
    fixed supply has to reach the floor of 1, as the script's
    [FIXED_SUPPLY] of 100,000,000 does. *)
Theorem burn_price_at_least_market_price (cfg : SimulationConfig) (d : nat) :
  valid_config cfg ->
  1 <= fixed_supply cfg ->
  (1 <= d <= days_to_simulate cfg)%nat ->
  exists row p,
    record_of_day cfg d = Some row /\
    price_with_burn row = Finite p /\
    price_no_burn row <= p.
Proof.
  intros Hv Hf Hd.
  assert (Hs : 0 < supply (state_before cfg d))
    by (apply supply_state_before_pos; lra).
  assert (Hle : supply (state_before cfg d) <= fixed_supply cfg)
    by (apply supply_state_after_le; assumption).
  exists (day_row cfg (state_before cfg d) d).
  eexists. split; [apply record_of_day_row, Hd|].
  split; [apply day_row_price, Hs|].
  cbn [day_row price_no_burn].
  assert (Hp : 0 < price_no_burn_today cfg d)
    by (apply price_no_burn_today_pos, Hv).
  assert (Hq : 1 <= fixed_supply cfg / supply (state_before cfg d)).
  { apply Rmult_le_reg_r with (supply (state_before cfg d)); [exact Hs|].
    unfold Rdiv. rewrite Rmult_assoc, Rinv_l by lra. lra. }
  nra.
Qed.

(** ** The theorems at the script's defaults *)

Lemma price_columns_formula_witness :
  valid_config default_config /\
  exists row,
    record_of_day default_config 365 = Some row /\
    day row = 365%nat /\
    daily_growth_factor default_config =
      Rpower (1 + price_change_pct default_config / 100) (1 / 365) /\
    price_no_burn row =
      initial_price default_config * daily_growth_factor default_config ^ 365 /\
    price_with_burn row =
      Finite (price_no_burn row *
              (fixed_supply default_config /
               supply_at_start default_config 365)).
Proof.
  assert (Hv : valid_config default_config) by valid_config_by_computation.
  split; [exact Hv|].
  apply (price_columns_formula default_config 365 Hv). day_in_range.
Defined.

Lemma remaining_supply_floor_and_monotone_witness :
  valid_config default_config /\
  (forall d row, record_of_day default_config d = Some row ->
     1 <= remaining_supply row) /\
  (forall d row row',
     record_of_day default_config d = Some row ->
     record_of_day default_config (S d) = Some row' ->
     remaining_supply row' <= remaining_supply row).
Proof.
  assert (Hv : valid_config default_config) by valid_config_by_computation.
  split; [exact Hv|].
  apply (remaining_supply_floor_and_monotone default_config Hv).
Defined.


Lemma daily_total_is_sum_of_services_witness :
  valid_config default_config /\
  exists row p,
    record_of_day default_config 1 = Some row /\
    price_with_burn row = Finite p /\
    daily_burn_by_service row =
      map (fun s => (service_name s, daily_volume s * burn_rate s / p))
        (services default_config) /\
    daily_burned_total row = sum_R (map snd (daily_burn_by_service row)).
Proof.
  assert (Hv : valid_config default_config) by valid_config_by_computation.
  split; [exact Hv|].
  apply (daily_total_is_sum_of_services default_config 1 Hv). day_in_range.
Defined.

Lemma zero_volume_flat_lines_witness :
  valid_config idle_config /\
  1 <= fixed_supply idle_config /\
  all_volumes_zero idle_config /\
  exists row,
    record_of_day idle_config 2 = Some row /\
    price_with_burn row = Finite (price_no_burn row) /\
    remaining_supply row = fixed_supply idle_config /\
    price_no_burn row = initial_price idle_config.
Proof.
  assert (Hv : valid_config idle_config) by valid_config_by_computation.
  assert (Hf : 1 <= fixed_supply idle_config)
    by (cbv [idle_config fixed_supply FIXED_SUPPLY]; lra).
  assert (Hz : all_volumes_zero idle_config)
    by (apply Forall_cons; [reflexivity|apply Forall_nil]).
  assert (Hd : (1 <= 2 <= days_to_simulate idle_config)%nat)
    by day_in_range.
  split; [exact Hv|]. split; [exact Hf|]. split; [exact Hz|].
  destruct (zero_volume_flat_lines idle_config 2 Hv Hf Hz Hd)
    as (row & Hrow & Hprice & Hsupply & Hflat).
  exists row. split; [exact Hrow|]. split; [exact Hprice|].
  split; [exact Hsupply|]. apply Hflat. reflexivity.
Defined.

Lemma small_supply_scenario_witness :
  100 < 200 /\
  exists row,
    record_of_day (small_supply_config 200 3) 2 = Some row /\
    remaining_supply row = 1 /\
    cumulative_at_start (small_supply_config 200 3) 2 <
    cumulative_burned row /\
    (2%nat = 1%nat -> daily_burned_total row = 200).
Proof.
  assert (Hv : 100 < 200) by lra.
  split; [exact Hv|].
  apply (small_supply_scenario 200 3 2 Hv). lia.
Defined.

Lemma supply_positive_every_day_witness :
  valid_config default_config /\
  1 <= fixed_supply default_config /\
  0 < supply (state_before default_config 365) /\
  supply_at_start default_config 365 =
  supply (state_before default_config 365) /\
  (exists p,
     price_with_burn_today default_config
       (supply (state_before default_config 365)) 365 = Finite p /\
     0 < p) /\
  record_of_day default_config 365 =
  Some (day_row default_config (state_before default_config 365) 365).
Proof.
  assert (Hv : valid_config default_config) by valid_config_by_computation.
  assert (Hf : 1 <= fixed_supply default_config)
    by (cbv [default_config fixed_supply FIXED_SUPPLY]; lra).
  split; [exact Hv|]. split; [exact Hf|].
  apply (supply_positive_every_day default_config 365 Hv Hf). day_in_range.
Defined.

Lemma burn_price_at_least_market_price_witness :
  valid_config default_config /\
  1 <= fixed_supply default_config /\
  exists row p,
    record_of_day default_config 365 = Some row /\
    price_with_burn row = Finite p /\
    price_no_burn row <= p.
Proof.
  assert (Hv : valid_config default_config) by valid_config_by_computation.
  assert (Hf : 1 <= fixed_supply default_config)
    by (cbv [default_config fixed_supply FIXED_SUPPLY]; lra).
  split; [exact Hv|]. split; [exact Hf|].
  apply (burn_price_at_least_market_price default_config 365 Hv Hf).
  day_in_range.
Defined.

(** * Further properties of the simulation loop *)

(** ** The growth factor *)

Lemma Rpower_base_1 (y : R) : Rpower 1 y = 1.
Proof. unfold Rpower. rewrite ln_1, Rmult_0_r. apply exp_0. Qed.

Lemma daily_growth_factor_ge_1 (cfg : SimulationConfig) :
  0 <= price_change_pct cfg -> 1 <= daily_growth_factor cfg.
Proof.
  intros H. rewrite <- (Rpower_base_1 (1 / 365)).
  unfold daily_growth_factor. apply Rle_Rpower_l; lra.
Qed.

Lemma daily_growth_factor_le_1 (cfg : SimulationConfig) :
  -100 < price_change_pct cfg <= 0 -> daily_growth_factor cfg <= 1.
Proof.
  intros H. rewrite <- (Rpower_base_1 (1 / 365)).
  unfold daily_growth_factor. apply Rle_Rpower_l; lra.
Qed.

(** X2: with a positive initial price, [price_no_burn] does not fall from
    a day to the next when the yearly change is not negative, and does
    not rise when it is between -100 and 0 percent. *)
Theorem price_no_burn_direction (cfg : SimulationConfig) (d : nat) :
  0 < initial_price cfg ->
  -100 < price_change_pct cfg ->
  (1 <= d)%nat ->
  (S d <= days_to_simulate cfg)%nat ->
  exists row row',
    record_of_day cfg d = Some row /\
    record_of_day cfg (S d) = Some row' /\
    (0 <= price_change_pct cfg -> price_no_burn row <= price_no_burn row') /\
    (price_change_pct cfg <= 0 -> price_no_burn row' <= price_no_burn row).
Proof.
  intros Hi Hp Hd Hn.
  exists (day_row cfg (state_before cfg d) d).
  exists (day_row cfg (state_before cfg (S d)) (S d)).
  split; [apply record_of_day_row; lia|].
  split; [apply record_of_day_row; lia|].
  cbn [day_row price_no_burn]. unfold price_no_burn_today.
  pose proof (pow_lt (daily_growth_factor cfg) d
                (daily_growth_factor_pos cfg)) as Hg.
  rewrite <- tech_pow_Rmult.
  replace (initial_price cfg *
           (daily_growth_factor cfg * daily_growth_factor cfg ^ d))
    with (daily_growth_factor cfg *
          (initial_price cfg * daily_growth_factor cfg ^ d)) by ring.
  pose proof (Rmult_lt_0_compat _ _ Hi Hg) as Ht.
  set (t := initial_price cfg * daily_growth_factor cfg ^ d) in *.
  split; intros Hs.
  - pose proof (daily_growth_factor_ge_1 cfg Hs). nra.
  - pose proof (daily_growth_factor_le_1 cfg (conj Hp Hs)). nra.
Qed.

(** ** Changing the number of days *)

Lemma run_loop_with_days (cfg : SimulationConfig) (k : nat) (ds : list nat) :
  run_loop (with_days cfg k) ds = run_loop cfg ds.
Proof. reflexivity. Qed.

Lemma table_state_after_prefix (cfg : SimulationConfig) (n m : nat) :
  (n <= m)%nat ->
  firstn n (table (state_after cfg m)) = table (state_after cfg n).
Proof.
  intros Hnm. induction m as [|m IH].
  - replace n with 0%nat by lia. reflexivity.
  - destruct (Nat.eq_dec n (S m)) as [->|Hne].
    + apply firstn_all2. unfold state_after.
      rewrite table_run_loop_length. lia.
    + rewrite state_after_S, table_loop_body.
      rewrite firstn_app.
      unfold state_after at 2. rewrite table_run_loop_length.
      replace (n - m)%nat with 0%nat by lia.
      rewrite firstn_O, app_nil_r. apply IH. lia.
Qed.

(** X3: simulating fewer days gives the first rows of the longer table:
    the number of days changes no row before it. *)
Theorem shorter_horizon_is_prefix (cfg : SimulationConfig) (n m : nat) :
  (n <= m)%nat ->
  simulate (with_days cfg n) = firstn n (simulate (with_days cfg m)).
Proof.
  intros Hnm. unfold simulate, days. cbn [with_days days_to_simulate].
  rewrite !run_loop_with_days.
  symmetry. apply (table_state_after_prefix cfg n m Hnm).
Qed.

(** ** The floor *)

Lemma supply_stays_at_floor (cfg : SimulationConfig) (n k : nat) :
  valid_config cfg ->
  supply (state_after cfg n) = 1 ->
  supply (state_after cfg (n + k)) = 1.
Proof.
  intros Hv Hn. induction k as [|k IH].
  - rewrite Nat.add_0_r. exact Hn.
  - rewrite Nat.add_succ_r, state_after_S.
    pose proof (day_row_burned_nonneg cfg (state_after cfg (n + k))
                  (S (n + k)) Hv) as Hb.
    rewrite IH in Hb. specialize (Hb Rlt_0_1).
    cbn [loop_body supply]. cbn [day_row daily_burned_total] in Hb.
    rewrite IH in *. apply Rmax_right. lra.
Qed.

Lemma remaining_supply_day_row (cfg : SimulationConfig) (d : nat) :
  (1 <= d)%nat ->
  remaining_supply (day_row cfg (state_before cfg d) d) =
  supply (state_after cfg d).
Proof.
  intros Hd. rewrite <- supply_loop_body, <- state_before_S by exact Hd.
  unfold state_before. simpl. rewrite Nat.sub_0_r. reflexivity.
Qed.

Lemma cumulative_burned_day_row (cfg : SimulationConfig) (d : nat) :
  (1 <= d)%nat ->
  cumulative_burned (day_row cfg (state_before cfg d) d) =
  cumulative_burn (state_after cfg d).
Proof.
  intros Hd. rewrite <- cumulative_loop_body, <- state_before_S by exact Hd.
  unfold state_before. simpl. rewrite Nat.sub_0_r. reflexivity.
Qed.

(** X4: under a valid configuration, once a record has a
    [remaining_supply] of 1, so has every later record. *)
Theorem floor_is_absorbing (cfg : SimulationConfig) (d d' : nat)
    (row : DailyRow) :
  valid_config cfg ->
  (d <= d' <= days_to_simulate cfg)%nat ->
  record_of_day cfg d = Some row ->
  remaining_supply row = 1 ->
  exists row',
    record_of_day cfg d' = Some row' /\ remaining_supply row' = 1.
Proof.
  intros Hv Hd Hrow Hone.
  apply record_of_day_inv in Hrow as [Hrange ->].
  rewrite remaining_supply_day_row in Hone by lia.
  exists (day_row cfg (state_before cfg d') d').
  split; [apply record_of_day_row; lia|].
  rewrite remaining_supply_day_row by lia.
  replace d' with (d + (d' - d))%nat by lia.
  apply supply_stays_at_floor; assumption.
Qed.

(** X5: under a valid configuration with [fixed_supply >= 1], no record
    has a [remaining_supply] above [fixed_supply]. *)
Theorem remaining_supply_at_most_fixed (cfg : SimulationConfig) (d : nat) :
  valid_config cfg ->
  1 <= fixed_supply cfg ->
  (1 <= d <= days_to_simulate cfg)%nat ->
  exists row,
    record_of_day cfg d = Some row /\
    remaining_supply row <= fixed_supply cfg.
Proof.
  intros Hv Hf Hd.
  exists (day_row cfg (state_before cfg d) d).
  split; [apply record_of_day_row, Hd|].
  rewrite remaining_supply_day_row by lia.
  apply supply_state_after_le; assumption.
Qed.

(** ** Sums over the table *)

Lemma sum_R_app (l l' : list R) : sum_R (l ++ l') = sum_R l + sum_R l'.
Proof.
  induction l as [|x l IH]; cbn [app sum_R fold_right].
  - unfold sum_R. simpl. lra.
  - fold (sum_R (l ++ l')). fold (sum_R l). rewrite IH. lra.
Qed.

Lemma cumulative_burn_is_sum (cfg : SimulationConfig) (n : nat) :
  cumulative_burn (state_after cfg n) =
  sum_R (map daily_burned_total (table (state_after cfg n))).
Proof.
  induction n as [|n IH]; [reflexivity|].
  rewrite state_after_S, table_loop_body, map_app, sum_R_app.
  cbn [loop_body cumulative_burn]. rewrite IH.
  cbn [map day_row daily_burned_total sum_R fold_right]. lra.
Qed.

(** X7: for every configuration, the [cumulative_burned] of the record
    of day [d] is the sum of the [daily_burned_total] of the records of
    the days 1 to [d]. *)
Theorem cumulative_is_sum_of_daily_totals (cfg : SimulationConfig) (d : nat) :
  (1 <= d <= days_to_simulate cfg)%nat ->
  exists row,
    record_of_day cfg d = Some row /\
    cumulative_burned row =
    sum_R (map daily_burned_total (firstn d (simulate cfg))).
Proof.
  intros Hd.
  exists (day_row cfg (state_before cfg d) d).
  split; [apply record_of_day_row, Hd|].
  rewrite cumulative_burned_day_row by lia.
  unfold simulate, days.
  change (run_loop cfg (seq 1 (days_to_simulate cfg)))
    with (state_after cfg (days_to_simulate cfg)).
  rewrite table_state_after_prefix by lia.
  apply cumulative_burn_is_sum.
Qed.

(** * The script's dictionaries and lists *)

(** ** Dictionaries *)

Lemma dict_get_head {V : Type} (d : dict V) (k : string) (v : V) :
  dict_get ((k, v) :: d) k = Some v.
Proof. simpl. rewrite String.eqb_refl. reflexivity. Qed.

Lemma dict_get_app_fresh {V : Type} (d1 d2 : dict V) (k : string) :
  ~ In k (dict_keys d1) -> dict_get (d1 ++ d2) k = dict_get d2 k.
Proof.
  induction d1 as [|[k' v'] d1 IH]; intros Hk; [reflexivity|].
  simpl in *. destruct (String.eqb_spec k k') as [->|Hne].
  - exfalso. apply Hk. left. reflexivity.
  - apply IH. intros Hin. apply Hk. right. exact Hin.
Qed.

Lemma dict_set_app_fresh {V : Type} (d1 d2 : dict V) (k : string) (v : V) :
  ~ In k (dict_keys d1) -> dict_set (d1 ++ d2) k v = d1 ++ dict_set d2 k v.
Proof.
  induction d1 as [|[k' v'] d1 IH]; intros Hk; [reflexivity|].
  simpl in *. destruct (String.eqb_spec k k') as [->|Hne].
  - exfalso. apply Hk. left. reflexivity.
  - f_equal. apply IH. intros Hin. apply Hk. right. exact Hin.
Qed.

Lemma dict_set_fresh {V : Type} (d : dict V) (k : string) (v : V) :
  ~ In k (dict_keys d) -> dict_set d k v = d ++ [(k, v)].
Proof.
  intros Hk. rewrite <- (app_nil_r d) at 1.
  rewrite dict_set_app_fresh by exact Hk. reflexivity.
Qed.

Lemma dict_get_None {V : Type} (d : dict V) (k : string) :
  dict_get d k = None <-> ~ In k (dict_keys d).
Proof.
  induction d as [|[k' v'] d IH]; simpl.
  - split; [intros _ H; exact H|reflexivity].
  - destruct (String.eqb_spec k k') as [->|Hne].
    + split; [discriminate|]. intros H. exfalso. apply H. left. reflexivity.
    + rewrite IH. split.
      * intros H [Heq|Hin]; [apply Hne; symmetry; exact Heq|exact (H Hin)].
      * intros H Hin. apply H. right. exact Hin.
Qed.

Lemma dict_append_app_fresh (d1 d2 : dict (list R)) (k : string)
    (l : list R) (x : R) :
  ~ In k (dict_keys d1) ->
  dict_append (d1 ++ (k, l) :: d2) k x = Some (d1 ++ (k, l ++ [x]) :: d2).
Proof.
  intros Hk. unfold dict_append.
  rewrite dict_get_app_fresh, dict_get_head by exact Hk.
  rewrite dict_set_app_fresh by exact Hk.
  simpl. rewrite String.eqb_refl. reflexivity.
Qed.

(** ** The sidebar loop *)

Lemma sidebar_loop_failed (defaults : dict R) (slider : string -> R -> R)
    (p : R) (rates : dict R) :
  fold_left (sidebar_step defaults slider p) rates None = None.
Proof. induction rates as [|item rates IH]; [reflexivity|exact IH]. Qed.

Lemma sidebar_loop_acc (defaults : dict R) (slider : string -> R -> R)
    (p : R) (rates : dict R) (volumes : dict R)
    (estimates : list (string * R)) :
  (forall k, In k (dict_keys rates) -> dict_get defaults k <> None) ->
  NoDup (dict_keys volumes ++ dict_keys rates) ->
  fold_left (sidebar_step defaults slider p) rates (Some (volumes, estimates))
  = Some
      (volumes ++
       map (fun item =>
              (fst item, slider (fst item) (default_of defaults (fst item))))
         rates,
       estimates ++
       map (fun item =>
              (fst item,
               slider (fst item) (default_of defaults (fst item)) *
               snd item / p))
         rates).
Proof.
  revert volumes estimates.
  induction rates as [|[k r] rates IH]; intros volumes estimates Hdef Hnd.
  - simpl. rewrite !app_nil_r. reflexivity.
  - cbn [fold_left sidebar_step fst snd].
    assert (Hk : dict_get defaults k <> None)
      by (apply Hdef; left; reflexivity).
    cbn [map fst snd].
    assert (Hv : default_of defaults k =
                 match dict_get defaults k with Some v => v | None => 0 end)
      by reflexivity.
    destruct (dict_get defaults k) as [v|]; [|contradiction].
    rewrite Hv.
    assert (Hfresh : ~ In k (dict_keys volumes)).
    { intros Hin. apply NoDup_remove_2 in Hnd. apply Hnd.
      apply in_or_app. left. exact Hin. }
    rewrite dict_set_fresh by exact Hfresh.
    rewrite IH.
    + rewrite <- !app_assoc. reflexivity.
    + intros k' Hin. apply Hdef. right. exact Hin.
    + unfold dict_keys in *. rewrite map_app, <- app_assoc. exact Hnd.
Qed.

Lemma sidebar_loop_total (defaults : dict R) (slider : string -> R -> R)
    (p : R) (rates : dict R) (acc : dict R * list (string * R)) :
  (forall k, In k (dict_keys rates) -> dict_get defaults k <> None) ->
  exists res,
    fold_left (sidebar_step defaults slider p) rates (Some acc) = Some res.
Proof.
  revert acc. induction rates as [|[k r] rates IH]; intros acc Hdef.
  - exists acc. reflexivity.
  - cbn [fold_left sidebar_step fst snd]. destruct acc as [volumes estimates].
    assert (Hk : dict_get defaults k <> None)
      by (apply Hdef; left; reflexivity).
    destruct (dict_get defaults k) as [v|]; [|contradiction].
    apply IH. intros k' Hin. apply Hdef. right. exact Hin.
Qed.

Lemma sidebar_loop_missing (defaults : dict R) (slider : string -> R -> R)
    (p : R) (rates : dict R) (acc : dict R * list (string * R)) (k : string) :
  In k (dict_keys rates) -> dict_get defaults k = None ->
  fold_left (sidebar_step defaults slider p) rates (Some acc) = None.
Proof.
  revert acc. induction rates as [|[k' r] rates IH]; intros acc Hin Hk.
  - destruct Hin.
  - cbn [fold_left sidebar_step fst snd]. destruct acc as [volumes estimates].
    destruct (dict_get defaults k') as [v|] eqn:Hk'.
    + apply IH; [|exact Hk]. destruct Hin as [Heq|Hin]; [|exact Hin].
      simpl in Heq. subst k'. congruence.
    + apply sidebar_loop_failed.
Qed.

(** X9: when no key of [burn_rates] occurs twice and each has a default
    volume, the sidebar loop ends with a [service_volumes] that has the
    keys of [burn_rates] in the same order, each with the value of its
    slider, and with one estimate [volume * burn_rate / price] per
    service. *)
Theorem sidebar_loop_volumes (rates defaults : dict R)
    (slider : string -> R -> R) (p : R) :
  NoDup (dict_keys rates) ->
  (forall k, In k (dict_keys rates) -> dict_get defaults k <> None) ->
  exists service_volumes estimates,
    sidebar_loop rates defaults slider p = Some (service_volumes, estimates) /\
    dict_keys service_volumes = dict_keys rates /\
    service_volumes =
      map (fun s => (service_name s, daily_volume s))
        (script_services rates defaults slider) /\
    estimates =
      map (fun s => (service_name s, daily_volume s * burn_rate s / p))
        (script_services rates defaults slider).
Proof.
  intros Hnd Hdef. unfold sidebar_loop.
  rewrite sidebar_loop_acc by (simpl; assumption).
  eexists. eexists. split; [reflexivity|].
  unfold script_services, dict_keys. cbn [app].
  split; [|split].
  - rewrite map_map. reflexivity.
  - rewrite map_map. reflexivity.
  - rewrite map_map. reflexivity.
Qed.

(** X10: the sidebar loop stops with a [KeyError] exactly when some
    service of [burn_rates] has no entry in [default_volumes]. *)
Theorem sidebar_loop_key_error (rates defaults : dict R)
    (slider : string -> R -> R) (p : R) :
  sidebar_loop rates defaults slider p = None <->
  exists k, In k (dict_keys rates) /\ dict_get defaults k = None.
Proof.
  unfold sidebar_loop. split.
  - intros Hnone.
    assert (Hdec : (forall k, In k (dict_keys rates) ->
                      dict_get defaults k <> None) \/
                   exists k, In k (dict_keys rates) /\
                             dict_get defaults k = None).
    { clear Hnone. induction rates as [|[k r] rates IH].
      - left. intros k [].
      - destruct (dict_get defaults k) as [v|] eqn:Hk.
        + destruct IH as [Hall|[k' [Hin Hk']]].
          * left. intros k' [Heq|Hin].
            -- simpl in Heq. subst k'. congruence.
            -- apply Hall, Hin.
          * right. exists k'. split; [right; exact Hin|exact Hk'].
        + right. exists k. split; [left; reflexivity|exact Hk]. }
    destruct Hdec as [Hall|Hex]; [|exact Hex].
    destruct (sidebar_loop_total defaults slider p rates ([], []) Hall)
      as [res Hres].
    unfold dict in *. rewrite Hres in Hnone. discriminate Hnone.
  - intros [k [Hin Hk]].
    apply (sidebar_loop_missing defaults slider p rates _ k Hin Hk).
Qed.

(** ** The per-service lists *)

Lemma service_columns_keys (names : list string) (rows : list (list R)) :
  dict_keys (service_columns names rows) = names.
Proof.
  revert rows. induction names as [|k names IH]; intros rows;
    [reflexivity|].
  cbn. f_equal. apply IH.
Qed.

Lemma service_columns_nil (names : list string) :
  service_columns names [] = map (fun k => (k, [])) names.
Proof.
  induction names as [|k names IH]; [reflexivity|].
  cbn. f_equal. exact IH.
Qed.

Lemma service_columns_snoc (names : list string) (rows : list (list R))
    (xs : list R) :
  length xs = length names ->
  service_columns names (rows ++ [xs]) =
  append_each (service_columns names rows) xs.
Proof.
  revert rows xs. induction names as [|k names IH]; intros rows xs Hlen.
  - reflexivity.
  - destruct xs as [|x xs]; [discriminate|].
    cbn [service_columns append_each]. rewrite !map_app. cbn [map hd tl].
    f_equal. apply IH. simpl in Hlen. lia.
Qed.

(** ** The inner loop on dictionaries *)

Lemma script_service_loop_acc (rates : dict R) (p : Price)
    (svcs : list Service) (t : R) (d1 d2 : dict (list R)) :
  (forall s, In s svcs ->
     dict_get rates (service_name s) = Some (burn_rate s)) ->
  dict_keys d2 = map service_name svcs ->
  NoDup (dict_keys d1 ++ dict_keys d2) ->
  fold_left (script_service_step rates p)
    (map (fun s => (service_name s, daily_volume s)) svcs)
    (Some (t, d1 ++ d2)) =
  Some (t + sum_R (map (fun s => burn_amount s p) svcs),
        d1 ++ append_each d2 (map (fun s => burn_amount s p) svcs)).
Proof.
  revert t d1 d2.
  induction svcs as [|s svcs IH]; intros t d1 d2 Hrates Hkeys Hnd.
  - destruct d2 as [|? ?]; [|discriminate].
    cbn. rewrite Rplus_0_r. reflexivity.
  - destruct d2 as [|[k l] d2]; [discriminate|].
    cbn in Hkeys. injection Hkeys as Hk Hkeys. subst k.
    cbn [map fold_left script_service_step fst snd].
    rewrite (Hrates s) by (left; reflexivity).
    assert (Hfresh : ~ In (service_name s) (dict_keys d1)).
    { intros Hin. cbn in Hnd. apply NoDup_remove_2 in Hnd. apply Hnd.
      apply in_or_app. left. exact Hin. }
    rewrite dict_append_app_fresh by exact Hfresh.
    change (d1 ++ (service_name s, l ++ [div_price (daily_volume s *
              burn_rate s) p]) :: d2)
      with (d1 ++ [(service_name s, l ++ [burn_amount s p])] ++ d2).
    rewrite app_assoc.
    change (div_price (daily_volume s * burn_rate s) p)
      with (burn_amount s p).
    rewrite IH.
    + cbn [sum_R fold_right append_each].
      fold (sum_R (map (fun s0 => burn_amount s0 p) svcs)).
      rewrite <- app_assoc. cbn [app]. f_equal. f_equal. lra.
    + intros s' Hin. apply Hrates. right. exact Hin.
    + exact Hkeys.
    + unfold dict_keys in *. rewrite map_app, <- app_assoc. exact Hnd.
Qed.

Lemma dict_get_of_services (svcs : list Service) (s : Service) :
  NoDup (map service_name svcs) -> In s svcs ->
  dict_get (map (fun s => (service_name s, burn_rate s)) svcs)
    (service_name s) = Some (burn_rate s).
Proof.
  induction svcs as [|s' svcs IH]; intros Hnd Hin; [destruct Hin|].
  cbn in *. inversion Hnd as [|? ? Hnotin Hnd']; subst.
  destruct Hin as [->|Hin].
  - rewrite String.eqb_refl. reflexivity.
  - destruct (String.eqb_spec (service_name s) (service_name s'))
      as [Heq|Hne].
    + exfalso. apply Hnotin. rewrite <- Heq. apply in_map, Hin.
    + apply IH; assumption.
Qed.

(** ** The loop on the script's variables follows the loop on rows *)

Section ScriptRun.

Variable cfg : SimulationConfig.
Variable rates : dict R.

Hypothesis names_distinct : NoDup (map service_name (services cfg)).
Hypothesis rates_of_services :
  rates = map (fun s => (service_name s, burn_rate s)) (services cfg).

Lemma row_amounts_day_row (st : LoopState) (d : nat) :
  row_amounts (day_row cfg st d) =
  map (fun s => burn_amount s (price_with_burn_today cfg (supply st) d))
    (services cfg).
Proof.
  unfold row_amounts. cbn [day_row daily_burn_by_service].
  rewrite service_loop_by_service, map_map. reflexivity.
Qed.

Lemma script_loop_body_step (st : LoopState) (d : nat) :
  script_loop_body cfg rates
    (map (fun s => (service_name s, daily_volume s)) (services cfg))
    (Some (script_state_of (map service_name (services cfg)) st)) d =
  Some (script_state_of (map service_name (services cfg))
          (loop_body cfg st d)).
Proof.
  unfold script_loop_body.
  cbn [script_state_of cur_supply cur_cumulative_burn col_price_no_burn
       col_price_with_burn col_remaining_supply col_cumulative_burned
       col_daily_burned_total col_daily_burn_by_service].
  set (p := price_with_burn_today cfg (supply st) d).
  set (cols := service_columns (map service_name (services cfg))
                 (map row_amounts (table st))).
  change cols with ([] ++ cols).
  rewrite script_service_loop_acc.
  - rewrite Rplus_0_l, <- service_loop_total. cbn [app].
    unfold script_state_of. rewrite table_loop_body, !map_app.
    cbn [map].
    rewrite service_columns_snoc
      by (rewrite row_amounts_day_row, !length_map; reflexivity).
    rewrite row_amounts_day_row. reflexivity.
  - intros s Hin. rewrite rates_of_services.
    apply dict_get_of_services; assumption.
  - apply service_columns_keys.
  - cbn [app]. unfold cols. rewrite service_columns_keys.
    exact names_distinct.
Qed.

Lemma script_loop_fold (ds : list nat) (st : LoopState) :
  fold_left
    (script_loop_body cfg rates
       (map (fun s => (service_name s, daily_volume s)) (services cfg)))
    ds (Some (script_state_of (map service_name (services cfg)) st)) =
  Some (script_state_of (map service_name (services cfg))
          (fold_left (loop_body cfg) ds st)).
Proof.
  revert st. induction ds as [|d ds IH]; intros st; [reflexivity|].
  cbn [fold_left]. rewrite script_loop_body_step. apply IH.
Qed.

Lemma script_initial_state :
  script_initial cfg rates =
  script_state_of (map service_name (services cfg)) (initial_state cfg).
Proof.
  unfold script_initial, script_state_of. cbn [initial_state table map].
  rewrite service_columns_nil, rates_of_services, !map_map. reflexivity.
Qed.

Lemma script_loop_state :
  script_loop cfg rates
    (map (fun s => (service_name s, daily_volume s)) (services cfg)) =
  Some (script_state_of (map service_name (services cfg))
          (run_loop cfg (days cfg))).
Proof.
  unfold script_loop. rewrite script_initial_state. apply script_loop_fold.
Qed.

End ScriptRun.

(** ** From the lists back to rows *)

Lemma service_columns_lengths (names : list string) (rows : list (list R)) :
  forallb (fun item => (length (snd item) =? length rows)%nat)
    (service_columns names rows) = true.
Proof.
  revert rows. induction names as [|k names IH]; intros rows;
    [reflexivity|].
  cbn [service_columns forallb snd].
  rewrite length_map, Nat.eqb_refl.
  specialize (IH (map (@tl R) rows)). rewrite length_map in IH.
  exact IH.
Qed.

Lemma service_columns_row (names : list string) (rows : list (list R))
    (i : nat) (xs : list R) :
  nth_error rows i = Some xs ->
  length xs = length names ->
  map (fun item => (fst item, nth i (snd item) 0))
    (service_columns names rows) =
  combine names xs.
Proof.
  revert rows xs. induction names as [|k names IH]; intros rows xs Hi Hlen.
  - reflexivity.
  - destruct xs as [|x xs]; [discriminate|].
    cbn [service_columns map fst snd combine]. f_equal.
    + f_equal. apply nth_error_nth.
      apply (map_nth_error (hd 0) i rows Hi).
    + apply IH.
      * apply (map_nth_error (@tl R) i rows Hi).
      * simpl in Hlen. lia.
Qed.

Lemma combine_fst_snd {A B : Type} (l : list (A * B)) :
  combine (map fst l) (map snd l) = l.
Proof.
  induction l as [|[a b] l IH]; [reflexivity|].
  cbn. f_equal. exact IH.
Qed.

Lemma data_frame_of_rows (names : list string) (rows : list DailyRow)
    (n : nat) (s c : R) :
  map day rows = seq 1 n ->
  (forall r, In r rows -> map fst (daily_burn_by_service r) = names) ->
  data_frame (seq 1 n)
    (mkScriptState s c
       (map price_no_burn rows) (map price_with_burn rows)
       (map remaining_supply rows) (map cumulative_burned rows)
       (map daily_burned_total rows)
       (service_columns names (map row_amounts rows))) =
  Some rows.
Proof.
  intros Hday Hnames.
  assert (Hlen : length rows = n).
  { rewrite <- (length_map day), Hday. apply length_seq. }
  unfold data_frame, columns_fit.
  cbn [col_price_no_burn col_price_with_burn col_remaining_supply
       col_cumulative_burned col_daily_burned_total
       col_daily_burn_by_service].
  rewrite length_seq, !length_map, Hlen, Nat.eqb_refl. cbn [andb].
  pose proof (service_columns_lengths names (map row_amounts rows)) as Hfit.
  rewrite length_map, Hlen in Hfit. rewrite Hfit.
  f_equal.
  set (st := mkScriptState _ _ _ _ _ _ _ _).
  apply (nth_ext _ _ (data_frame_row (seq 1 n) st 0)
           (data_frame_row (seq 1 n) st 0)).
  - rewrite length_map, length_seq. symmetry. exact Hlen.
  - intros i Hi. rewrite length_map, length_seq in Hi.
    rewrite (map_nth (data_frame_row (seq 1 n) st)), seq_nth by exact Hi.
    cbn [Nat.add].
    assert (Hrow : nth_error rows i =
                   Some (nth i rows (data_frame_row (seq 1 n) st 0)))
      by (apply nth_error_nth'; lia).
    set (r := nth i rows (data_frame_row (seq 1 n) st 0)) in *.
    unfold data_frame_row, st.
    cbn [col_price_no_burn col_price_with_burn col_remaining_supply
         col_cumulative_burned col_daily_burned_total
         col_daily_burn_by_service].
    rewrite <- Hday.
    rewrite (nth_error_nth _ _ _ (map_nth_error day i rows Hrow)).
    rewrite (nth_error_nth _ _ _
               (map_nth_error price_no_burn i rows Hrow)).
    rewrite (nth_error_nth _ _ _
               (map_nth_error price_with_burn i rows Hrow)).
    rewrite (nth_error_nth _ _ _
               (map_nth_error remaining_supply i rows Hrow)).
    rewrite (nth_error_nth _ _ _
               (map_nth_error cumulative_burned i rows Hrow)).
    rewrite (nth_error_nth _ _ _
               (map_nth_error daily_burned_total i rows Hrow)).
    rewrite (service_columns_row names (map row_amounts rows) i
               (row_amounts r)).
    + rewrite <- (Hnames r) by (apply (nth_error_In rows i), Hrow).
      unfold row_amounts. rewrite combine_fst_snd.
      destruct r; reflexivity.
    + apply (map_nth_error row_amounts i rows Hrow).
    + unfold row_amounts. rewrite length_map.
      rewrite <- (Hnames r) by (apply (nth_error_In rows i), Hrow).
      rewrite length_map. reflexivity.
Qed.

Lemma table_rows_names (cfg : SimulationConfig) (n : nat) (r : DailyRow) :
  In r (table (state_after cfg n)) ->
  map fst (daily_burn_by_service r) = map service_name (services cfg).
Proof.
  intros Hin. apply In_nth_error in Hin as [i Hi].
  assert (Hlt : (i < n)%nat).
  { assert (H : (i < length (table (state_after cfg n)))%nat)
      by (apply nth_error_Some; congruence).
    unfold state_after in H. rewrite table_run_loop_length in H. exact H. }
  rewrite nth_error_table in Hi by exact Hlt.
  injection Hi as <-. cbn [day_row daily_burn_by_service].
  rewrite service_loop_by_service, map_map. reflexivity.
Qed.

Lemma rates_of_script_services (rates defaults : dict R)
    (slider : string -> R -> R) :
  map (fun s => (service_name s, burn_rate s))
    (script_services rates defaults slider) = rates /\
  map service_name (script_services rates defaults slider) =
  dict_keys rates.
Proof.
  unfold script_services, dict_keys. rewrite !map_map. cbn. split.
  - rewrite <- (map_id rates) at 2. apply map_ext.
    intros [k r]. reflexivity.
  - reflexivity.
Qed.

(** X11: when no key of [burn_rates] occurs twice and each has a default
    volume, the script runs from the sidebar to the data frame without a
    [KeyError] and without lists of different lengths, and the rows of
    its data frame are the table [simulate] computes for the services the
    sidebar sets up. *)
Theorem script_table_is_simulate (cfg : SimulationConfig)
    (rates defaults : dict R) (slider : string -> R -> R) :
  NoDup (dict_keys rates) ->
  (forall k, In k (dict_keys rates) -> dict_get defaults k <> None) ->
  services cfg = script_services rates defaults slider ->
  script_table cfg rates defaults slider = Some (simulate cfg).
Proof.
  intros Hnd Hdef Hsvcs. unfold script_table.
  destruct (sidebar_loop_volumes rates defaults slider (initial_price cfg)
              Hnd Hdef) as (volumes & estimates & Hside & _ & Hvol & _).
  rewrite Hside, Hvol, <- Hsvcs.
  destruct (rates_of_script_services rates defaults slider)
    as [Hrates Hnames].
  rewrite <- Hsvcs in Hrates, Hnames.
  rewrite script_loop_state.
  - unfold script_state_of, simulate.
    apply data_frame_of_rows.
    + apply table_run_loop_days.
    + intros r Hin.
      apply (table_rows_names cfg (days_to_simulate cfg) r Hin).
  - rewrite Hnames. exact Hnd.
  - symmetry. exact Hrates.
Qed.

(** ** The sidebar's estimate and averages *)

Lemma average_daily_burn_acc (rates : dict R) (d1 d2 : dict (list R)) :
  dict_keys rates = dict_keys d2 ->
  NoDup (dict_keys d1 ++ dict_keys d2) ->
  average_daily_burn rates (d1 ++ d2) =
  Some (map (fun item => (fst item, mean (snd item))) d2).
Proof.
  revert d1 d2. induction rates as [|[k r] rates IH]; intros d1 d2 Hk Hnd.
  - destruct d2; [reflexivity|discriminate].
  - destruct d2 as [|[k' col] d2]; [discriminate|].
    cbn in Hk. injection Hk as <- Hk.
    cbn [average_daily_burn fst snd map].
    assert (Hfresh : ~ In k (dict_keys d1)).
    { intros Hin. cbn in Hnd. apply NoDup_remove_2 in Hnd. apply Hnd.
      apply in_or_app. left. exact Hin. }
    rewrite dict_get_app_fresh, dict_get_head by exact Hfresh.
    change (d1 ++ (k, col) :: d2) with (d1 ++ [(k, col)] ++ d2).
    rewrite app_assoc, IH; [reflexivity|exact Hk|].
    unfold dict_keys in *. rewrite map_app, <- app_assoc. exact Hnd.
Qed.

(** ** The further properties at the script's values *)

Lemma price_no_burn_direction_witness :
  0 <= price_change_pct default_config /\
  exists row row',
    record_of_day default_config 1 = Some row /\
    record_of_day default_config 2 = Some row' /\
    price_no_burn row <= price_no_burn row'.
Proof.
  assert (Hi : 0 < initial_price default_config) by (cbn; lra).
  assert (Hp : -100 < price_change_pct default_config) by (cbn; lra).
  assert (Hs : 0 <= price_change_pct default_config) by (cbn; lra).
  assert (Hn : (2 <= days_to_simulate default_config)%nat) by day_in_range.
  split; [exact Hs|].
  destruct (price_no_burn_direction default_config 1 Hi Hp (le_n 1) Hn)
    as (row & row' & H1 & H2 & Hup & _).
  exists row, row'. split; [exact H1|]. split; [exact H2|].
  apply Hup, Hs.
Defined.

Lemma shorter_horizon_is_prefix_witness :
  simulate (with_days default_config 30) =
  firstn 30 (simulate (with_days default_config 365)).
Proof.
  apply (shorter_horizon_is_prefix default_config 30 365). lia.
Defined.

Lemma floor_is_absorbing_witness :
  valid_config (small_supply_config 200 3) /\
  exists row row',
    record_of_day (small_supply_config 200 3) 1 = Some row /\
    remaining_supply row = 1 /\
    record_of_day (small_supply_config 200 3) 3 = Some row' /\
    remaining_supply row' = 1.
Proof.
  assert (Hv : valid_config (small_supply_config 200 3))
    by valid_config_by_computation.
  assert (Hd : (1 <= 1 <= days_to_simulate (small_supply_config 200 3))%nat)
    by day_in_range.
  assert (Hd' : (1 <= 3 <= days_to_simulate (small_supply_config 200 3))%nat)
    by day_in_range.
  pose proof (record_of_day_row (small_supply_config 200 3) 1 Hd) as Hrow.
  assert (Hone : remaining_supply
                   (day_row (small_supply_config 200 3)
                      (state_before (small_supply_config 200 3) 1) 1) = 1).
  { rewrite small_supply_first_day by (lra || reflexivity). reflexivity. }
  split; [exact Hv|].
  destruct (floor_is_absorbing (small_supply_config 200 3) 1 3 _ Hv Hd'
              Hrow Hone) as (row' & Hrow' & Hone').
  eexists. exists row'. split; [exact Hrow|]. split; [exact Hone|].
  split; [exact Hrow'|exact Hone'].
Defined.

Lemma remaining_supply_at_most_fixed_witness :
  valid_config default_config /\
  1 <= fixed_supply default_config /\
  exists row,
    record_of_day default_config 365 = Some row /\
    remaining_supply row <= fixed_supply default_config.
Proof.
  assert (Hv : valid_config default_config) by valid_config_by_computation.
  assert (Hf : 1 <= fixed_supply default_config)
    by (cbv [default_config fixed_supply FIXED_SUPPLY]; lra).
  split; [exact Hv|]. split; [exact Hf|].
  apply (remaining_supply_at_most_fixed default_config 365 Hv Hf).
  day_in_range.
Defined.

Lemma cumulative_is_sum_of_daily_totals_witness :
  exists row,
    record_of_day default_config 365 = Some row /\
    cumulative_burned row =
    sum_R (map daily_burned_total (firstn 365 (simulate default_config))).
Proof.
  apply (cumulative_is_sum_of_daily_totals default_config 365).
  day_in_range.
Defined.

Lemma sidebar_loop_volumes_witness :
  NoDup (dict_keys burn_rates) /\
  exists service_volumes estimates,
    sidebar_loop burn_rates default_volumes untouched_slider 1 =
      Some (service_volumes, estimates) /\
    dict_keys service_volumes = dict_keys burn_rates /\
    service_volumes =
      map (fun s => (service_name s, daily_volume s))
        (script_services burn_rates default_volumes untouched_slider) /\
    estimates =
      map (fun s => (service_name s, daily_volume s * burn_rate s / 1))
        (script_services burn_rates default_volumes untouched_slider).
Proof.
  assert (Hnd : NoDup (dict_keys burn_rates)) by distinct_keys.
  split; [exact Hnd|].
  apply (sidebar_loop_volumes burn_rates default_volumes untouched_slider 1
           Hnd).
  defaults_present.
Defined.

Lemma sidebar_loop_key_error_witness :
  In "Mixer"%string (dict_keys burn_rates) /\
  dict_get (@nil (string * R)) "Mixer" = None /\
  sidebar_loop burn_rates [] untouched_slider 1 = None.
Proof.
  assert (Hin : In "Mixer"%string (dict_keys burn_rates))
    by (left; reflexivity).
  assert (Hk : dict_get (@nil (string * R)) "Mixer" = None) by reflexivity.
  split; [exact Hin|]. split; [exact Hk|].
  apply (proj2 (sidebar_loop_key_error burn_rates [] untouched_slider 1)).
  exists "Mixer"%string. split; [exact Hin|exact Hk].
Defined.

Lemma script_table_is_simulate_witness :
  NoDup (dict_keys burn_rates) /\
  services default_config =
    script_services burn_rates default_volumes untouched_slider /\
  script_table default_config burn_rates default_volumes untouched_slider =
  Some (simulate default_config).
Proof.
  assert (Hnd : NoDup (dict_keys burn_rates)) by distinct_keys.
  assert (Hsvcs : services default_config =
                  script_services burn_rates default_volumes
                    untouched_slider) by reflexivity.
  split; [exact Hnd|]. split; [exact Hsvcs|].
  apply (script_table_is_simulate default_config burn_rates default_volumes
           untouched_slider Hnd); [defaults_present|exact Hsvcs].
Defined.

(** * The supply and the premium from day to day *)

Lemma supply_state_after_ge_1 (cfg : SimulationConfig) (n : nat) :
  1 <= fixed_supply cfg -> 1 <= supply (state_after cfg n).
Proof.
  intros Hf. destruct n as [|n]; [exact Hf|].
  apply supply_state_after_floor.
Qed.

(** X16: under a valid configuration with [fixed_supply >= 1], a day's
    [price_with_burn] is at most [fixed_supply] times its
    [price_no_burn]. *)
Theorem scarcity_premium_capped (cfg : SimulationConfig) (d : nat) :
  valid_config cfg ->
  1 <= fixed_supply cfg ->
  (1 <= d <= days_to_simulate cfg)%nat ->
  exists row p,
    record_of_day cfg d = Some row /\
    price_with_burn row = Finite p /\
    p <= price_no_burn row * fixed_supply cfg.
Proof.
  intros Hv Hf Hd.
  assert (Hs : 1 <= supply (state_before cfg d))
    by (apply supply_state_after_ge_1, Hf).
  exists (day_row cfg (state_before cfg d) d).
  eexists. split; [apply record_of_day_row, Hd|].
  split; [apply day_row_price; lra|].
  cbn [day_row price_no_burn].
  pose proof (price_no_burn_today_pos cfg d (proj1 Hv)) as Hp.
  apply Rmult_le_compat_l; [lra|].
  apply Rmult_le_reg_r with (supply (state_before cfg d)); [lra|].
  unfold Rdiv. rewrite Rmult_assoc, Rinv_l by lra. nra.
Qed.

Lemma scarcity_premium_capped_witness :
  valid_config default_config /\
  1 <= fixed_supply default_config /\
  exists row p,
    record_of_day default_config 365 = Some row /\
    price_with_burn row = Finite p /\
    p <= price_no_burn row * fixed_supply default_config.
Proof.
  assert (Hv : valid_config default_config) by valid_config_by_computation.
  assert (Hf : 1 <= fixed_supply default_config)
    by (cbv [default_config fixed_supply FIXED_SUPPLY]; lra).
  split; [exact Hv|]. split; [exact Hf|].
  apply (scarcity_premium_capped default_config 365 Hv Hf). day_in_range.
Defined.

(** * The sidebar's estimate and averages against the table *)

Lemma Forall2_map_same {A B C : Type} (P : B -> C -> Prop)
    (f : A -> B) (g : A -> C) (l : list A) :
  (forall a, In a l -> P (f a) (g a)) ->
  Forall2 P (map f l) (map g l).
Proof.
  induction l as [|a l IH]; intros H; cbn [map]; constructor.
  - apply H. left. reflexivity.
  - apply IH. intros b Hin. apply H. right. exact Hin.
Qed.

Lemma day_one_burns (cfg : SimulationConfig) :
  0 < fixed_supply cfg ->
  daily_burn_by_service (day_row cfg (state_before cfg 1) 1) =
  map (fun s =>
         (service_name s,
          daily_volume s * burn_rate s /
          (initial_price cfg * daily_growth_factor cfg)))
    (services cfg).
Proof.
  intros Hf. cbn [day_row daily_burn_by_service].
  change (supply (state_before cfg 1)) with (fixed_supply cfg).
  rewrite price_with_burn_today_finite by exact Hf.
  rewrite service_loop_by_service. apply map_ext. intros s. f_equal.
  unfold burn_amount, div_price, price_no_burn_today. f_equal.
  field. lra.
Qed.

(** X12: under a valid configuration set up by the sidebar, the sidebar
    shows one estimate per service, in the order of the burns recorded on
    day 1.  With no yearly price change the estimates are the recorded
    burns of day 1; with a yearly change of 0 or more no estimate is
    below the recorded burn, with a change of 0 or less none is above
    it: the estimate prices the burn at [initial_price], the loop at the
    price after one day of growth. *)
Theorem sidebar_estimate_and_day_one (cfg : SimulationConfig)
    (rates defaults : dict R) (slider : string -> R -> R) :
  NoDup (dict_keys rates) ->
  (forall k, In k (dict_keys rates) -> dict_get defaults k <> None) ->
  services cfg = script_services rates defaults slider ->
  valid_config cfg ->
  exists service_volumes estimates row,
    sidebar_loop rates defaults slider (initial_price cfg) =
      Some (service_volumes, estimates) /\
    record_of_day cfg 1 = Some row /\
    map fst estimates = map fst (daily_burn_by_service row) /\
    (price_change_pct cfg = 0 -> estimates = daily_burn_by_service row) /\
    (0 <= price_change_pct cfg ->
     Forall2 (fun estimate burn => snd burn <= snd estimate)
       estimates (daily_burn_by_service row)) /\
    (price_change_pct cfg <= 0 ->
     Forall2 (fun estimate burn => snd estimate <= snd burn)
       estimates (daily_burn_by_service row)).
Proof.
  intros Hnd Hdef Hsvcs Hv.
  destruct Hv as (Hp & Hpct & Hn & Hf & Hs).
  destruct (sidebar_loop_volumes rates defaults slider (initial_price cfg)
              Hnd Hdef) as (volumes & estimates & Hside & _ & _ & Hest).
  exists volumes, estimates, (day_row cfg (state_before cfg 1) 1).
  split; [exact Hside|].
  split; [apply record_of_day_row; lia|].
  rewrite Hest, <- Hsvcs, day_one_burns by exact Hf.
  pose proof (daily_growth_factor_pos cfg) as Hg.
  assert (Hamount : forall s, In s (services cfg) ->
                      0 <= daily_volume s * burn_rate s).
  { intros s Hin. rewrite Forall_forall in Hs.
    destruct (Hs s Hin) as [[Hr _] Hvol]. apply Rmult_le_pos; assumption. }
  assert (Hscale : forall s,
            daily_volume s * burn_rate s /
            (initial_price cfg * daily_growth_factor cfg) =
            daily_volume s * burn_rate s / initial_price cfg *
            / daily_growth_factor cfg)
    by (intros s; field; lra).
  split; [|split; [|split]].
  - rewrite !map_map. reflexivity.
  - intros Hflat. apply map_ext. intros s. f_equal.
    rewrite (daily_growth_factor_flat cfg Hflat). field. lra.
  - intros Hup. apply Forall2_map_same. intros s Hin. cbn [snd].
    rewrite Hscale.
    pose proof (daily_growth_factor_ge_1 cfg Hup) as Hge.
    assert (Hinv : / daily_growth_factor cfg <= 1).
    { rewrite <- Rinv_1. apply Rinv_le_contravar; lra. }
    assert (He : 0 <= daily_volume s * burn_rate s / initial_price cfg).
    { apply Rmult_le_pos; [apply Hamount, Hin|].
      left. apply Rinv_0_lt_compat, Hp. }
    nra.
  - intros Hdown. apply Forall2_map_same. intros s Hin. cbn [snd].
    rewrite Hscale.
    pose proof (daily_growth_factor_le_1 cfg (conj Hpct Hdown)) as Hle.
    assert (Hinv : 1 <= / daily_growth_factor cfg).
    { rewrite <- Rinv_1 at 1. apply Rinv_le_contravar; lra. }
    assert (He : 0 <= daily_volume s * burn_rate s / initial_price cfg).
    { apply Rmult_le_pos; [apply Hamount, Hin|].
      left. apply Rinv_0_lt_compat, Hp. }
    nra.
Qed.

Lemma forallb_lengths (d : dict (list R)) (n : nat) :
  forallb (fun item => (length (snd item) =? n)%nat) d = true ->
  Forall (fun item => length (snd item) = n) d.
Proof.
  induction d as [|item d IH]; intros H; constructor.
  - cbn [forallb] in H. apply andb_prop in H as [H _].
    apply Nat.eqb_eq, H.
  - apply IH. cbn [forallb] in H. apply andb_prop in H as [_ H]. exact H.
Qed.

(** X13: when the sidebar has set up the services, the loop ends without
    a [KeyError] and an average daily burn is computed for every service
    of [burn_rates], in its order, each lookup in [daily_burn_by_service]
    finding its list.  The list averaged for a service holds that
    service's entry of every row of the table, so it has
    [days_to_simulate] entries. *)
Theorem average_daily_burn_lists (cfg : SimulationConfig)
    (rates defaults : dict R) (slider : string -> R -> R) :
  NoDup (dict_keys rates) ->
  (forall k, In k (dict_keys rates) -> dict_get defaults k <> None) ->
  services cfg = script_services rates defaults slider ->
  exists service_volumes estimates st avgs,
    sidebar_loop rates defaults slider (initial_price cfg) =
      Some (service_volumes, estimates) /\
    script_loop cfg rates service_volumes = Some st /\
    average_daily_burn rates (col_daily_burn_by_service st) = Some avgs /\
    map fst avgs = dict_keys rates /\
    avgs =
      map (fun item => (fst item, mean (snd item)))
        (col_daily_burn_by_service st) /\
    col_daily_burn_by_service st =
      service_columns (dict_keys rates) (map row_amounts (simulate cfg)) /\
    Forall (fun item => length (snd item) = days_to_simulate cfg)
      (col_daily_burn_by_service st).
Proof.
  intros Hnd Hdef Hsvcs.
  destruct (sidebar_loop_volumes rates defaults slider (initial_price cfg)
              Hnd Hdef) as (volumes & estimates & Hside & _ & Hvol & _).
  destruct (rates_of_script_services rates defaults slider)
    as [Hrates Hnames].
  rewrite <- Hsvcs in Hrates, Hnames, Hvol.
  assert (Hnd' : NoDup (map service_name (services cfg)))
    by (rewrite Hnames; exact Hnd).
  pose proof (script_loop_state cfg rates Hnd' (eq_sym Hrates)) as Hloop.
  rewrite <- Hvol, Hnames in Hloop.
  set (cols := service_columns (dict_keys rates)
                 (map row_amounts (simulate cfg))).
  assert (Havg : average_daily_burn rates cols =
                 Some (map (fun item => (fst item, mean (snd item))) cols)).
  { apply (average_daily_burn_acc rates [] cols).
    - unfold cols. rewrite service_columns_keys. reflexivity.
    - cbn [app]. unfold cols. rewrite service_columns_keys. exact Hnd. }
  exists volumes, estimates,
    (script_state_of (dict_keys rates) (run_loop cfg (days cfg))),
    (map (fun item => (fst item, mean (snd item))) cols).
  split; [exact Hside|]. split; [exact Hloop|]. split; [exact Havg|].
  split; [|split; [reflexivity|split; [reflexivity|]]].
  - rewrite map_map. cbn [fst].
    change (map (fun x => fst x) cols) with (dict_keys cols).
    unfold cols. apply service_columns_keys.
  - cbn [script_state_of col_daily_burn_by_service].
    apply forallb_lengths.
    pose proof (service_columns_lengths (dict_keys rates)
                  (map row_amounts (table (run_loop cfg (days cfg)))))
      as Hfit.
    rewrite length_map in Hfit. unfold days in Hfit.
    rewrite table_run_loop_length in Hfit. exact Hfit.
Qed.

Lemma sidebar_estimate_and_day_one_witness :
  valid_config default_config /\
  0 <= price_change_pct default_config /\
  exists service_volumes estimates row,
    sidebar_loop burn_rates default_volumes untouched_slider
      (initial_price default_config) = Some (service_volumes, estimates) /\
    record_of_day default_config 1 = Some row /\
    map fst estimates = map fst (daily_burn_by_service row) /\
    Forall2 (fun estimate burn => snd burn <= snd estimate)
      estimates (daily_burn_by_service row).
Proof.
  assert (Hnd : NoDup (dict_keys burn_rates)) by distinct_keys.
  assert (Hv : valid_config default_config) by valid_config_by_computation.
  assert (Hup : 0 <= price_change_pct default_config) by (cbn; lra).
  assert (Hdef : forall k, In k (dict_keys burn_rates) ->
                   dict_get default_volumes k <> None) by defaults_present.
  split; [exact Hv|]. split; [exact Hup|].
  destruct (sidebar_estimate_and_day_one default_config burn_rates
              default_volumes untouched_slider Hnd Hdef eq_refl Hv)
    as (volumes & estimates & row & Hside & Hrow & Hnames & _ & Hge & _).
  exists volumes, estimates, row.
  split; [exact Hside|]. split; [exact Hrow|]. split; [exact Hnames|].
  apply Hge, Hup.
Defined.

Lemma average_daily_burn_lists_witness :
  NoDup (dict_keys burn_rates) /\
  exists service_volumes estimates st avgs,
    sidebar_loop burn_rates default_volumes untouched_slider
      (initial_price default_config) = Some (service_volumes, estimates) /\
    script_loop default_config burn_rates service_volumes = Some st /\
    average_daily_burn burn_rates (col_daily_burn_by_service st) =
      Some avgs /\
    map fst avgs = dict_keys burn_rates /\
    avgs =
      map (fun item => (fst item, mean (snd item)))
        (col_daily_burn_by_service st) /\
    col_daily_burn_by_service st =
      service_columns (dict_keys burn_rates)
        (map row_amounts (simulate default_config)) /\
    Forall (fun item => length (snd item) = days_to_simulate default_config)
      (col_daily_burn_by_service st).
Proof.
  assert (Hnd : NoDup (dict_keys burn_rates)) by distinct_keys.
  split; [exact Hnd|].
  apply (average_daily_burn_lists default_config burn_rates default_volumes
           untouched_slider Hnd); [defaults_present|reflexivity].
Defined.
